(** * Account forms, remote call adapters, best-seller fetch and the
      [PATCH /account] route of the demo store, as a shallow embedding.

    Component state ([useState]) is a record threaded through the handlers.
    An [async] handler is cut at its single [await]: the part before it runs
    at the submit event and either finishes or leaves one request in flight
    together with the continuation that runs when the request settles. *)

From Stdlib Require Import Ascii.
From stdpp Require Import gmap strings list pretty.

Set Warnings "-register-all".

(** ** JavaScript values *)

(** Values that [JSON.parse] can produce, plus [undefined] for an absent
    property.  Numbers are kept as integers; the handlers only look at
    whether a number is zero. *)
Inductive JsValue : Type :=
  | VUndefined
  | VNull
  | VBool (b : bool)
  | VNum (n : Z)
  | VStr (s : string)
  | VArr (xs : list JsValue)
  | VObj (props : gmap string JsValue).

(** [s] is not the empty string: the truthiness of a JavaScript string. *)
Definition nonempty (s : string) : bool :=
  match s with
  | EmptyString => false
  | String _ _ => true
  end.

(** [if (v)] on a JavaScript value. *)
Definition truthy (v : JsValue) : bool :=
  match v with
  | VUndefined | VNull => false
  | VBool b => b
  | VNum n => negb (n =? 0)%Z
  | VStr s => nonempty s
  | VArr _ | VObj _ => true
  end.

(** [if (e)] on a [string | null | undefined] error slot. *)
Definition truthy_msg (e : option string) : bool :=
  match e with
  | Some s => nonempty s
  | None => false
  end.

(** The property read [v.k].  [None] stands for the [TypeError] raised when
    [v] is [null] or [undefined]; an absent property reads as [undefined]. *)
Definition get_prop (v : JsValue) (k : string) : option JsValue :=
  match v with
  | VUndefined | VNull => None
  | VObj props => Some (default VUndefined (props !! k))
  | VBool _ | VNum _ | VStr _ | VArr _ => Some VUndefined
  end.

(** A thrown [Error] object and [Error.prototype.toString]. *)
Record JsError := mkJsError { err_name : string; err_message : string }.

Definition toString (e : JsError) : string :=
  if nonempty (err_name e)
  then if nonempty (err_message e)
       then err_name e +:+ ": " +:+ err_message e
       else err_name e
  else err_message e.

(** How a promise settles. *)
Inductive Settled : Type :=
  | Fulfilled (v : JsValue)
  | Rejected (e : JsError).

(** ** DOM form controls, as the handlers read them *)

Record ValidityState := mkValidity { valid : bool; valueMissing : bool }.

Record HTMLInputElement := mkInput { value : string; validity : ValidityState }.

(** What a browser reports for the password inputs of these forms
    ([required], [minLength={8}]) holding a value the user typed: missing
    when empty, invalid when empty or shorter than eight. *)
Definition password_input (s : string) : HTMLInputElement :=
  mkInput s
    (mkValidity (nonempty s && (8 <=? String.length s)) (negb (nonempty s))).

(** ** HTTP *)

Inductive Method := GET | POST | PATCH | DELETE.

(** [req_body] lists the properties of the object given to
    [JSON.stringify], in the order they are written. *)
Record Request := mkRequest {
  req_url : string;
  req_method : Method;
  req_headers : list (string * string);
  req_body : list (string * string)
}.

(** [json] is what [res.json()] settles to. *)
Record Response := mkResponse {
  ok : bool;
  status : N;
  url : string;
  json : Settled
}.

(** [fetch] either rejects (no HTTP response at all) or yields a response. *)
Inductive FetchOutcome : Type :=
  | NetworkError (e : JsError)
  | Responded (res : Response).

Definition json_headers : list (string * string) :=
  [("Accept", "application/json"); ("Content-Type", "application/json")].

(** A remote call adapter: the request it sends, and the value its promise
    settles to once [fetch] has settled. *)
Record Call := mkCall {
  request : Request;
  settle : FetchOutcome → Settled
}.

(** ** Handlers *)

(** What a handler does besides updating its component's state. *)
Inductive Effect : Type :=
  | Navigate (to : string)
  | RenderServerComponents
  | Close
  | UnhandledRejection.

(** A handler run up to its [await] (if it reaches one). *)
Inductive Async (S : Type) : Type :=
  | Return (st : S)
  | Await (st : S) (call : Call) (k : Settled → S → S * list Effect).
Arguments Return {S} st.
Arguments Await {S} st call k.

Definition state_of {S} (a : Async S) : S :=
  match a with
  | Return st => st
  | Await st _ _ => st
  end.

(** The requests a handler run has put on the network. *)
Definition issued {S} (a : Async S) : list Request :=
  match a with
  | Return _ => []
  | Await _ call _ => [request call]
  end.

(** A mounted form: its state and the calls that are in flight, oldest
    first, each with the continuation awaiting it. *)
Record Mounted (S : Type) := mkMounted {
  current : S;
  pending : list (Call * (Settled → S → S * list Effect))
}.
Arguments mkMounted {S} current pending.
Arguments current {S} _.
Arguments pending {S} _.

(** The form's state during and after a handler run started on it. *)
Definition dispatch {S} (a : Async S) (i : Mounted S) : Mounted S :=
  match a with
  | Return st => mkMounted st (pending i)
  | Await st call k => mkMounted st (pending i ++ [(call, k)])
  end.

(** The [n]-th call in flight settles: its continuation runs on the state
    the form has by then. *)
Definition settle_call {S} (n : nat) (o : FetchOutcome) (i : Mounted S)
  : Mounted S :=
  match pending i !! n with
  | Some (call, k) =>
      mkMounted (fst (k (settle call o) (current i))) (delete n (pending i))
  | None => i
  end.

(** ** [~/lib/utils] *)

Module Utils.

(** Modelled from the spec: [emailValidation] is imported from [~/lib/utils],
    whose source is not among the files; section 4.1 gives its rule: the
    field must pass the built-in email validity, failure message
    "Please enter a valid email". *)
Definition emailValidation (email : HTMLInputElement) : option string :=
  if valid (validity email) then None else Some "Please enter a valid email".

(** Modelled from the spec: [passwordValidation] is imported from
    [~/lib/utils], whose source is not among the files; section 4.1 gives its
    rule: missing value, "Please enter a password"; too short, "Passwords
    must be at least 6 characters". *)
Definition passwordValidation (password : HTMLInputElement) : option string :=
  if valid (validity password) then None
  else if valueMissing (validity password) then Some "Please enter a password"
  else Some "Passwords must be at least 6 characters".

End Utils.

(** ** [AccountLoginForm.client.tsx] *)

Module AccountLoginForm.

Record State := mkState {
  hasSubmitError : bool;
  showEmailField : bool;
  email : string;
  emailError : option string;
  password : string;
  passwordError : option string
}.

Definition initial : State := mkState false true "" None "" None.

Definition setHasSubmitError (b : bool) (st : State) : State :=
  mkState b (showEmailField st) (email st) (emailError st) (password st)
    (passwordError st).
Definition setShowEmailField (b : bool) (st : State) : State :=
  mkState (hasSubmitError st) b (email st) (emailError st) (password st)
    (passwordError st).
Definition setEmail (s : string) (st : State) : State :=
  mkState (hasSubmitError st) (showEmailField st) s (emailError st)
    (password st) (passwordError st).
Definition setEmailError (e : option string) (st : State) : State :=
  mkState (hasSubmitError st) (showEmailField st) (email st) e (password st)
    (passwordError st).
Definition setPassword (s : string) (st : State) : State :=
  mkState (hasSubmitError st) (showEmailField st) (email st) (emailError st) s
    (passwordError st).
Definition setPasswordError (e : option string) (st : State) : State :=
  mkState (hasSubmitError st) (showEmailField st) (email st) (emailError st)
    (password st) e.

(** [event.currentTarget] of the submit event. *)
Record FormElements := mkForm {
  form_email : HTMLInputElement;
  form_password : HTMLInputElement
}.

Definition callLoginApi (email password : string) : Call :=
  {| request :=
       mkRequest "/account/login" POST json_headers
         [("email", email); ("password", password)];
     settle := λ o,
       match o with
       | Responded res => if ok res then Fulfilled (VObj ∅) else json res
       | NetworkError error =>
           Fulfilled (VObj {["error" := VStr (toString error)]})
       end |}.

Definition resetForm (st : State) : State :=
  setPasswordError None
    (setPassword "" (setEmailError None (setEmail "" (setShowEmailField true st)))).

Definition checkEmail (event : FormElements) (st : State) : State :=
  if valid (validity (form_email event))
  then setShowEmailField false st
  else setEmailError (Some "Please enter a valid email") st.

(** The rest of [checkPassword] once [callLoginApi] has settled. *)
Definition checkPassword_resume (response : Settled) (st : State)
  : State * list Effect :=
  match response with
  | Rejected _ => (st, [UnhandledRejection])
  | Fulfilled response =>
      match get_prop response "error" with
      | None => (st, [UnhandledRejection])
      | Some error =>
          if truthy error
          then (resetForm (setHasSubmitError true st), [])
          else (st, [Navigate "/account"])
      end
  end.

Definition checkPassword (event : FormElements) (st : State) : Async State :=
  let validity := validity (form_password event) in
  if valid validity
  then Await st (callLoginApi (email st) (password st)) checkPassword_resume
  else Return
         (setPasswordError
            (Some (if valueMissing validity
                   then "Please enter a password"
                   else "Passwords must be at least 6 characters")) st).

Definition onSubmit (st : State) (event : FormElements) : Async State :=
  let st1 := setPasswordError None (setHasSubmitError false (setEmailError None st)) in
  if showEmailField st
  then Return (checkEmail event st1)
  else checkPassword event st1.

(** The submit buttons ("Next", "Sign in") carry no [disabled] attribute:
    every submit action reaches [onSubmit]. *)
Definition submit (event : FormElements) (i : Mounted State) : Mounted State :=
  dispatch (onSubmit (current i) event) i.

(** What the user and the network can do to a mounted login form. *)
Inductive Action : Type :=
  | TypeEmail (s : string)
  | TypePassword (s : string)
  | ChangeEmail
  | Submit (event : FormElements)
  | Settle (n : nat) (o : FetchOutcome).

Definition step (i : Mounted State) (a : Action) : Mounted State :=
  match a with
  | TypeEmail s => mkMounted (setEmail s (current i)) (pending i)
  | TypePassword s => mkMounted (setPassword s (current i)) (pending i)
  | ChangeEmail => mkMounted (resetForm (current i)) (pending i)
  | Submit event => submit event i
  | Settle n o => settle_call n o i
  end.

Definition run (actions : list Action) : Mounted State :=
  foldl step (mkMounted initial []) actions.

End AccountLoginForm.

(** ** [AccountPasswordResetForm] *)

Module AccountPasswordResetForm.

Record Props := mkProps { id : string; resetToken : string }.

Record State := mkState {
  submitError : option JsValue;
  password : string;
  passwordError : option string;
  passwordConfirm : string;
  passwordConfirmError : option string
}.

Definition initial : State := mkState None "" None "" None.

Definition setSubmitError (e : option JsValue) (st : State) : State :=
  mkState e (password st) (passwordError st) (passwordConfirm st)
    (passwordConfirmError st).
Definition setPassword (s : string) (st : State) : State :=
  mkState (submitError st) s (passwordError st) (passwordConfirm st)
    (passwordConfirmError st).
Definition setPasswordError (e : option string) (st : State) : State :=
  mkState (submitError st) (password st) e (passwordConfirm st)
    (passwordConfirmError st).
Definition setPasswordConfirm (s : string) (st : State) : State :=
  mkState (submitError st) (password st) (passwordError st) s
    (passwordConfirmError st).
Definition setPasswordConfirmError (e : option string) (st : State) : State :=
  mkState (submitError st) (password st) (passwordError st)
    (passwordConfirm st) e.

Record FormElements := mkForm {
  form_password : HTMLInputElement;
  form_passwordConfirm : HTMLInputElement
}.

Definition callPasswordResetApi (id resetToken password : string) : Call :=
  {| request :=
       mkRequest "/account/reset" POST json_headers
         [("id", id); ("resetToken", resetToken); ("password", password)];
     settle := λ o,
       match o with
       | Responded res => if ok res then Fulfilled (VObj ∅) else json res
       | NetworkError error =>
           Fulfilled (VObj {["error" := VStr (toString error)]})
       end |}.

(** The result is the state with the queued updates applied, and
    [hasError]. *)
Definition passwordValidation (form : FormElements) (st : State)
  : State * bool :=
  let st1 := setPasswordConfirmError None (setPasswordError None st) in
  let '(st2, hasError2) :=
    if negb (valid (validity (form_password form)))
    then (setPasswordError
            (Some (if valueMissing (validity (form_password form))
                   then "Please enter a password"
                   else "Passwords must be at least 6 characters")) st1,
          true)
    else (st1, false) in
  let '(st3, hasError3) :=
    if negb (valid (validity (form_passwordConfirm form)))
    then (setPasswordConfirmError
            (Some (if valueMissing (validity (form_password form))
                   then "Please re-enter a password"
                   else "Passwords must be at least 6 characters")) st2,
          true)
    else (st2, hasError2) in
  if negb (String.eqb (password st) (passwordConfirm st))
  then (setPasswordConfirmError
          (Some "The two password entered did not match.") st3,
        true)
  else (st3, hasError3).

(** The rest of [onSubmit] once [callPasswordResetApi] has settled. *)
Definition onSubmit_resume (response : Settled) (st : State)
  : State * list Effect :=
  match response with
  | Rejected _ => (st, [UnhandledRejection])
  | Fulfilled response =>
      match get_prop response "error" with
      | None => (st, [UnhandledRejection])
      | Some error =>
          if truthy error
          then (setSubmitError (Some error) st, [])
          else (st, [Navigate "/account"])
      end
  end.

Definition onSubmit (props : Props) (st : State) (event : FormElements)
  : Async State :=
  let '(st1, hasError) := passwordValidation event st in
  if hasError
  then Return st1
  else Await st1
         (callPasswordResetApi (id props) (resetToken props) (password st))
         onSubmit_resume.

(** The "Save" button carries no [disabled] attribute. *)
Definition submit (props : Props) (event : FormElements)
    (i : Mounted State) : Mounted State :=
  dispatch (onSubmit props (current i) event) i.

End AccountPasswordResetForm.

(** ** [AccountDetailsEdit.client.tsx] *)

Module AccountDetailsEdit.

Record State := mkState {
  saving : bool;
  firstName : string;
  lastName : string;
  phone : string;
  email : string;
  emailError : option string;
  currentPasswordError : option string;
  newPasswordError : option string;
  newPassword2Error : option string;
  submitError : option JsValue
}.

(** [useState] on the props. *)
Definition initial (_firstName _lastName _phone _email : string) : State :=
  mkState false _firstName _lastName _phone _email None None None None None.

Definition setSaving (b : bool) (st : State) : State :=
  mkState b (firstName st) (lastName st) (phone st) (email st) (emailError st)
    (currentPasswordError st) (newPasswordError st) (newPassword2Error st)
    (submitError st).
Definition setFirstName (s : string) (st : State) : State :=
  mkState (saving st) s (lastName st) (phone st) (email st) (emailError st)
    (currentPasswordError st) (newPasswordError st) (newPassword2Error st)
    (submitError st).
Definition setLastName (s : string) (st : State) : State :=
  mkState (saving st) (firstName st) s (phone st) (email st) (emailError st)
    (currentPasswordError st) (newPasswordError st) (newPassword2Error st)
    (submitError st).
Definition setPhone (s : string) (st : State) : State :=
  mkState (saving st) (firstName st) (lastName st) s (email st) (emailError st)
    (currentPasswordError st) (newPasswordError st) (newPassword2Error st)
    (submitError st).
Definition setEmail (s : string) (st : State) : State :=
  mkState (saving st) (firstName st) (lastName st) (phone st) s (emailError st)
    (currentPasswordError st) (newPasswordError st) (newPassword2Error st)
    (submitError st).
Definition setEmailError (e : option string) (st : State) : State :=
  mkState (saving st) (firstName st) (lastName st) (phone st) (email st) e
    (currentPasswordError st) (newPasswordError st) (newPassword2Error st)
    (submitError st).
Definition setCurrentPasswordError (e : option string) (st : State) : State :=
  mkState (saving st) (firstName st) (lastName st) (phone st) (email st)
    (emailError st) e (newPasswordError st) (newPassword2Error st)
    (submitError st).
Definition setNewPasswordError (e : option string) (st : State) : State :=
  mkState (saving st) (firstName st) (lastName st) (phone st) (email st)
    (emailError st) (currentPasswordError st) e (newPassword2Error st)
    (submitError st).
Definition setNewPassword2Error (e : option string) (st : State) : State :=
  mkState (saving st) (firstName st) (lastName st) (phone st) (email st)
    (emailError st) (currentPasswordError st) (newPasswordError st) e
    (submitError st).
Definition setSubmitError (e : option JsValue) (st : State) : State :=
  mkState (saving st) (firstName st) (lastName st) (phone st) (email st)
    (emailError st) (currentPasswordError st) (newPasswordError st)
    (newPassword2Error st) e.

Record FormElements := mkForm {
  form_firstName : HTMLInputElement;
  form_lastName : HTMLInputElement;
  form_phone : HTMLInputElement;
  form_email : HTMLInputElement;
  form_currentPassword : HTMLInputElement;
  form_newPassword : HTMLInputElement;
  form_newPassword2 : HTMLInputElement
}.

Definition callAccountUpdateApi
    (email phone firstName lastName currentPassword newPassword : string)
  : Call :=
  {| request :=
       mkRequest "/account" PATCH json_headers
         [("email", email); ("phone", phone); ("firstName", firstName);
          ("lastName", lastName); ("currentPassword", currentPassword);
          ("newPassword", newPassword)];
     settle := λ o,
       match o with
       | Responded res => if ok res then Fulfilled (VObj ∅) else json res
       | NetworkError _e =>
           Fulfilled
             (VObj {["error" := VStr "Error saving account. Please try again."]})
       end |}.

(** [if (e) setter(e)]. *)
Definition set_if_truthy (setter : option string → State → State)
    (e : option string) (st : State) : State :=
  if truthy_msg e then setter e st else st.

(** The rest of [onSubmit] once [callAccountUpdateApi] has settled. *)
Definition onSubmit_resume (accountUpdateResponse : Settled) (st : State)
  : State * list Effect :=
  match accountUpdateResponse with
  | Rejected _ => (st, [UnhandledRejection])
  | Fulfilled accountUpdateResponse =>
      let st1 := setSaving false st in
      match get_prop accountUpdateResponse "error" with
      | None => (st1, [UnhandledRejection])
      | Some error =>
          if truthy error
          then (setSubmitError (Some error) st1, [])
          else (st1, [RenderServerComponents; Close])
      end
  end.

Definition onSubmit (st : State) (event : FormElements) : Async State :=
  let st1 :=
    setNewPassword2Error None
      (setNewPasswordError None
         (setCurrentPasswordError None (setEmailError None st))) in
  let emailError := Utils.emailValidation (form_email event) in
  let st2 := set_if_truthy setEmailError emailError st1 in
  let '(st3, currentPasswordError, newPasswordError, newPassword2Error) :=
    (* Only validate the password fields if the current password has a value *)
    if nonempty (value (form_currentPassword event))
    then
      let currentPasswordError :=
        Utils.passwordValidation (form_currentPassword event) in
      let st21 := set_if_truthy setCurrentPasswordError currentPasswordError st2 in
      let newPasswordError :=
        Utils.passwordValidation (form_newPassword event) in
      let st22 := set_if_truthy setNewPasswordError newPasswordError st21 in
      let newPassword2Error :=
        if negb (String.eqb (value (form_newPassword event))
                            (value (form_newPassword2 event)))
        then Some "The two passwords entered did not match"
        else None in
      let st23 := set_if_truthy setNewPassword2Error newPassword2Error st22 in
      (st23, currentPasswordError, newPasswordError, newPassword2Error)
    else (st2, None, None, None) in
  if truthy_msg emailError || truthy_msg currentPasswordError
     || truthy_msg newPasswordError || truthy_msg newPassword2Error
  then Return st3
  else Await (setSaving true st3)
         (callAccountUpdateApi (email st) (phone st) (firstName st)
            (lastName st) (value (form_currentPassword event))
            (value (form_newPassword event)))
         onSubmit_resume.

(** The "Save" button is rendered with [disabled={saving}]: while [saving]
    holds, a submit action does not reach [onSubmit]. *)
Definition submit (event : FormElements) (i : Mounted State) : Mounted State :=
  if saving (current i) then i else dispatch (onSubmit (current i) event) i.

(** What the user and the network can do to a mounted edit form. *)
Inductive Action : Type :=
  | TypeFirstName (s : string)
  | TypeLastName (s : string)
  | TypePhone (s : string)
  | TypeEmail (s : string)
  | Submit (event : FormElements)
  | Settle (n : nat) (o : FetchOutcome).

Definition step (i : Mounted State) (a : Action) : Mounted State :=
  match a with
  | TypeFirstName s => mkMounted (setFirstName s (current i)) (pending i)
  | TypeLastName s => mkMounted (setLastName s (current i)) (pending i)
  | TypePhone s => mkMounted (setPhone s (current i)) (pending i)
  | TypeEmail s => mkMounted (setEmail s (current i)) (pending i)
  | Submit event => submit event i
  | Settle n o => settle_call n o i
  end.

Definition run (init : State) (actions : list Action) : Mounted State :=
  foldl step (mkMounted init []) actions.

End AccountDetailsEdit.

(** ** [CartEmpty]: the best-seller section *)

Module CartEmpty.

(** What [TopProducts] returns to the renderer: [null], a text node, one
    [ProductCard] per product (with its [key]), or a thrown exception. *)
Inductive Rendered : Type :=
  | RenderNull
  | RenderText (s : string)
  | RenderCards (cards : list (JsValue * JsValue))
  | RenderThrows.

(** [products.length === 0] on whatever [response.json()] gave; [None] when
    reading [length] throws. *)
Definition length_is_zero (products : JsValue) : option bool :=
  match products with
  | VUndefined | VNull => None
  | VArr xs => Some (bool_decide (length xs = 0))
  | VStr s => Some (negb (nonempty s))
  | VObj props =>
      Some match props !! "length" with
           | Some (VNum n) => (n =? 0)%Z
           | _ => false
           end
  | VBool _ | VNum _ => Some false
  end.

(** [<ProductCard product={product} key={product.id} />] *)
Definition card (product : JsValue) : option (JsValue * JsValue) :=
  key ← get_prop product "id"; Some (key, product).

(** The component, with the lines it passes to [console.error]. *)
Definition TopProducts (fetchSync : string → Response)
  : Rendered * list string :=
  let response := fetchSync "/api/bestSellers" in
  if negb (ok response)
  then (RenderNull,
        ["Unable to load top products " +:+ url response +:+ " returned a "
           +:+ pretty (status response)])
  else
    match json response with
    | Rejected _ => (RenderThrows, [])
    | Fulfilled products =>
        match length_is_zero products with
        | None => (RenderThrows, [])
        | Some true => (RenderText "No products found.", [])
        | Some false =>
            match products with
            | VArr xs =>
                match mapM card xs with
                | Some cards => (RenderCards cards, [])
                | None => (RenderThrows, [])
                end
            | _ => (RenderThrows, [])
            end
        end
    end.

(** [sub] occurs in [s]. *)
Definition contains (s sub : string) : Prop :=
  ∃ pre post, s = pre +:+ sub +:+ post.

End CartEmpty.

(** ** [routes/account/index.server.tsx]: the API route *)

Module AccountRoute.

Record HydrogenRequest := mkHydrogenRequest {
  method : string;
  request_json : Settled
}.

(** What [session.get()] resolves to, as far as the route reads it. *)
Record Session := mkSession { customerAccessToken : JsValue }.

Inductive Body := BodyNull | BodyText (s : string) | BodyJson (v : JsValue).

Record HttpResponse := mkHttpResponse {
  res_body : Body;
  res_status : N;
  res_headers : list (string * string)
}.

(** A run of the route: it answers at once, its promise rejects, or it sends
    the [customerUpdate] mutation with these variables and answers from the
    mutation's [data] and [errors]. *)
Inductive Run : Type :=
  | Respond (r : HttpResponse)
  | Throws
  | QueryShop (customer : gmap string JsValue) (customerAccessToken : JsValue)
      (k : JsValue → JsValue → HttpResponse).

(** [if (v) customer.k = v] *)
Definition assign_if_truthy (k : string) (v : JsValue)
    (customer : gmap string JsValue) : gmap string JsValue :=
  if truthy v then <[k := v]> customer else customer.

Section Api.

(** [getApiErrorMessage] of [~/lib/utils] is not among the files; the route
    is modelled for any such helper. *)
Variable getApiErrorMessage : string → JsValue → JsValue → JsValue.

Definition api (request : HydrogenRequest) (session : option Session) : Run :=
  if negb (String.eqb (method request) "PATCH")
     && negb (String.eqb (method request) "DELETE")
  then Respond (mkHttpResponse BodyNull 405 [("Allow", "PATCH,DELETE")])
  else
    match session with
    | None =>
        Respond (mkHttpResponse (BodyText "Session storage not available.") 400 [])
    | Some session =>
        if negb (truthy (customerAccessToken session))
        then Respond (mkHttpResponse BodyNull 401 [])
        else
          match request_json request with
          | Rejected _ => Throws
          | Fulfilled body =>
              match get_prop body "email", get_prop body "phone",
                    get_prop body "firstName", get_prop body "lastName",
                    get_prop body "newPassword" with
              | Some email, Some phone, Some firstName, Some lastName,
                Some newPassword =>
                  let customer :=
                    assign_if_truthy "password" newPassword
                      (assign_if_truthy "lastName" lastName
                         (assign_if_truthy "firstName" firstName
                            (assign_if_truthy "phone" phone
                               (assign_if_truthy "email" email ∅)))) in
                  QueryShop customer (customerAccessToken session)
                    (λ data errors,
                       let error :=
                         getApiErrorMessage "customerUpdate" data errors in
                       if truthy error
                       then mkHttpResponse
                              (BodyJson (VObj {["error" := error]})) 400 []
                       else mkHttpResponse BodyNull 200 [])
              | _, _, _, _, _ => Throws
              end
          end
    end.

End Api.

(** The request property that feeds each property of the mutation's
    [customer] input. *)
Definition source_field (customer_key : string) : option string :=
  if String.eqb customer_key "email" then Some "email"
  else if String.eqb customer_key "phone" then Some "phone"
  else if String.eqb customer_key "firstName" then Some "firstName"
  else if String.eqb customer_key "lastName" then Some "lastName"
  else if String.eqb customer_key "password" then Some "newPassword"
  else None.

End AccountRoute.

(** ** JavaScript string methods used by the account page *)

(** [s.lastIndexOf(c)] for a one-character search string: the index of the
    last occurrence, or [-1]. *)
Fixpoint lastIndexOf (s : string) (c : Ascii.ascii) : Z :=
  match s with
  | EmptyString => -1
  | String a s' =>
      let r := lastIndexOf s' c in
      if (0 <=? r)%Z then (1 + r)%Z
      else if Ascii.eqb a c then 0%Z else (-1)%Z
  end.

(** [c] occurs in [s]. *)
Fixpoint occurs (c : Ascii.ascii) (s : string) : bool :=
  match s with
  | EmptyString => false
  | String a s' => Ascii.eqb a c || occurs c s'
  end.

(** An index argument of [substring], brought into [0 .. len]. *)
Definition clamp (len : nat) (i : Z) : nat :=
  Z.to_nat (Z.min (Z.max i 0) (Z.of_nat len)).

(** [s.substring(indexStart, indexEnd)]: both indices are clamped, and
    swapped when the first is the larger. *)
Definition substring (s : string) (indexStart indexEnd : Z) : string :=
  let a := clamp (String.length s) indexStart in
  let b := clamp (String.length s) indexEnd in
  String.substring (a `min` b) ((a `max` b) - (a `min` b)) s.

(** [a || b] *)
Definition js_or (a b : JsValue) : JsValue := if truthy a then a else b.

(** [v?.k]: [undefined] when [v] is [null] or [undefined]. *)
Definition opt_prop (v : JsValue) (k : string) : JsValue :=
  default VUndefined (get_prop v k).

(** ** [routes/account/index.server.tsx]: the account page *)

Module AccountPage.

(** [`Welcome, ${firstName}.`], [`Welcome to your account.`] or
    ['Account Details']. *)
Inductive Heading : Type :=
  | Welcome (firstName : JsValue)
  | WelcomeToYourAccount
  | AccountDetailsHeading.

(** The children [AuthenticatedAccount] puts in its [Layout]. *)
Inductive Child : Type :=
  | Seo
  | PageHeader (heading : Heading)
  | AccountOrderHistory (orders : JsValue)
  | AccountDetails (firstName lastName phone email : JsValue)
  | AccountAddressBook (defaultAddress : JsValue) (addresses : list JsValue)
  | FeaturedCollections (data : JsValue)
  | ProductSwimlane (data : JsValue)
  | Literal (v : JsValue).

(** [{a && <X/>}]: the element when [a] is truthy, otherwise [a] itself,
    which React leaves out when it is a boolean, [null] or [undefined]. *)
Definition and_children (a : JsValue) (xs : list Child) : list Child :=
  if truthy a then xs
  else match a with
       | VBool _ | VNull | VUndefined => []
       | _ => [Literal a]
       end.

(** What the page function returns. *)
Inductive Result : Type :=
  | Redirect (to : string)
  | Page (customerId : JsValue) (children : list Child)
  | Throws.

Record Variables := mkVariables {
  customerAccessToken : JsValue;
  language : string;
  country : string
}.

(** [id.substring(0, id.lastIndexOf('?'))] *)
Definition strip_query (id : string) : string :=
  substring id 0 (lastIndexOf id "?"%char).

(** The callback mapped over the customer's addresses; [None] when it
    throws. *)
Definition with_original_id (address : JsValue) : option JsValue :=
  match address with
  | VObj props =>
      match props !! "id" with
      | Some (VStr id) =>
          Some (VObj (<["originalId" := VStr id]>
                        (<["id" := VStr (strip_query id)]> props)))
      | _ => None
      end
  | _ => None
  end.

(** [customer?.defaultAddress?.id?.substring(0, ...)]; [None] when it
    throws. *)
Definition default_address_id (customer : JsValue) : option JsValue :=
  match opt_prop customer "defaultAddress" with
  | VUndefined | VNull => Some VUndefined
  | defaultAddress =>
      match opt_prop defaultAddress "id" with
      | VUndefined | VNull => Some VUndefined
      | VStr id => Some (VStr (strip_query id))
      | _ => None
      end
  end.

Section Page.

(** [flattenConnection] of the framework: from a connection to the array of
    its nodes. *)
Variable flattenConnection : JsValue → JsValue.

Definition AuthenticatedAccount (customer : JsValue) (addresses : list JsValue)
    (defaultAddress : JsValue) (featuredCollections featuredProducts : JsValue)
  : option (list Child) :=
  let orders := js_or (flattenConnection (opt_prop customer "orders")) (VArr []) in
  let heading :=
    if truthy customer
    then if truthy (opt_prop customer "firstName")
         then Welcome (opt_prop customer "firstName")
         else WelcomeToYourAccount
    else AccountDetailsHeading in
  firstName ← get_prop customer "firstName";
  lastName ← get_prop customer "lastName";
  phone ← get_prop customer "phone";
  email ← get_prop customer "email";
  Some ([Seo; PageHeader heading]
        ++ and_children orders [AccountOrderHistory orders]
        ++ [AccountDetails firstName lastName phone email;
            AccountAddressBook defaultAddress addresses]
        ++ and_children (VBool (negb (truthy orders)))
             [FeaturedCollections featuredCollections;
              ProductSwimlane featuredProducts]).

(** [useShopQuery] is given as the function from the query variables to the
    [data] it returns. *)
Definition Account (sessionToken : JsValue) (languageCode countryCode : string)
    (useShopQuery : Variables → JsValue) : Result :=
  if negb (truthy sessionToken) then Redirect "/account/login"
  else
    let data := useShopQuery (mkVariables sessionToken languageCode countryCode) in
    match get_prop data "customer", get_prop data "featuredCollections",
          get_prop data "featuredProducts" with
    | Some customer, Some featuredCollections, Some featuredProducts =>
        if negb (truthy customer) then Redirect "/account/login"
        else
          match flattenConnection (opt_prop customer "addresses") with
          | VArr nodes =>
              match mapM with_original_id nodes,
                    default_address_id customer with
              | Some addresses, Some defaultAddress =>
                  match AuthenticatedAccount customer addresses defaultAddress
                          (flattenConnection featuredCollections)
                          (flattenConnection featuredProducts) with
                  | Some children => Page (opt_prop customer "id") children
                  | None => Throws
                  end
              | _, _ => Throws
              end
          | _ => Throws
          end
    | _, _, _ => Throws
    end.

End Page.

End AccountPage.

(** * Statements and example inputs *)

(** The contract section 4.3 gives for a remote call adapter (C4). *)
Definition adapter_contract (c : Call) : Prop :=
  (∀ res, settle c (Responded res)
          = if ok res then Fulfilled (VObj ∅) else json res)
  ∧ (∀ e, settle c (NetworkError e)
          = Fulfilled (VObj {["error" := VStr (toString e)]})).

Definition failed_to_fetch : JsError := mkJsError "TypeError" "Failed to fetch".

(** The error slots of each form. *)
Definition login_no_errors (st : AccountLoginForm.State) : Prop :=
  AccountLoginForm.emailError st = None
  ∧ AccountLoginForm.passwordError st = None.

Definition reset_no_errors (st : AccountPasswordResetForm.State) : Prop :=
  AccountPasswordResetForm.passwordError st = None
  ∧ AccountPasswordResetForm.passwordConfirmError st = None.

Definition edit_no_errors (st : AccountDetailsEdit.State) : Prop :=
  AccountDetailsEdit.emailError st = None
  ∧ AccountDetailsEdit.currentPasswordError st = None
  ∧ AccountDetailsEdit.newPasswordError st = None
  ∧ AccountDetailsEdit.newPassword2Error st = None.

(** A handler run either put nothing on the network, or left the state it
    reached without any validation error. *)
Definition gated {S} (no_errors : S → Prop) (a : Async S) : Prop :=
  (issued a ≠ [] → no_errors (state_of a))
  ∧ (¬ no_errors (state_of a) → a = Return (state_of a)).

Definition valid_field (s : string) : HTMLInputElement :=
  mkInput s (mkValidity true false).

Definition missing_field : HTMLInputElement :=
  mkInput "" (mkValidity false true).

(** An edit-form submission with a malformed email address. *)
Definition edit_bad_email : AccountDetailsEdit.FormElements :=
  AccountDetailsEdit.mkForm (valid_field "Ada") (valid_field "Lovelace")
    (valid_field "") (mkInput "ada@" (mkValidity false false))
    (valid_field "") (valid_field "") (valid_field "").

Definition edit_ada : AccountDetailsEdit.State :=
  AccountDetailsEdit.initial "Ada" "Lovelace" "" "ada@".

(** The specification's statement (C2) for one submission: with [currentPassword] empty, no
    password error, and no password property of a request sent non-empty. *)
Definition no_password_sent_without_current
    (st : AccountDetailsEdit.State) (event : AccountDetailsEdit.FormElements)
  : Prop :=
  value (AccountDetailsEdit.form_currentPassword event) = "" →
  let a := AccountDetailsEdit.onSubmit st event in
  AccountDetailsEdit.currentPasswordError (state_of a) = None
  ∧ AccountDetailsEdit.newPasswordError (state_of a) = None
  ∧ AccountDetailsEdit.newPassword2Error (state_of a) = None
  ∧ ∀ req v, req ∈ issued a →
      ("currentPassword", v) ∈ req_body req ∨ ("newPassword", v) ∈ req_body req →
      v = "".

(** Only a new password typed, the current one left empty. *)
Definition edit_new_password_only : AccountDetailsEdit.FormElements :=
  AccountDetailsEdit.mkForm (valid_field "Ada") (valid_field "Lovelace")
    (valid_field "") (valid_field "ada@example.com")
    missing_field (valid_field "hunter22") missing_field.

Definition edit_ada_ok : AccountDetailsEdit.State :=
  AccountDetailsEdit.initial "Ada" "Lovelace" "" "ada@example.com".

(** The specification's statement (C7) for one submission of the
    account-details form. *)
Definition edit_mismatch_blocks
    (st : AccountDetailsEdit.State) (event : AccountDetailsEdit.FormElements)
  : Prop :=
  value (AccountDetailsEdit.form_newPassword event)
  ≠ value (AccountDetailsEdit.form_newPassword2 event) →
  let a := AccountDetailsEdit.onSubmit st event in
  issued a = []
  ∧ AccountDetailsEdit.newPassword2Error (state_of a)
    = Some "The two passwords entered did not match".

(** The specification's statement (C7) for one submission of the
    password-reset form. *)
Definition reset_mismatch_blocks (props : AccountPasswordResetForm.Props)
    (st : AccountPasswordResetForm.State)
    (event : AccountPasswordResetForm.FormElements) : Prop :=
  AccountPasswordResetForm.password st
  ≠ AccountPasswordResetForm.passwordConfirm st →
  let a := AccountPasswordResetForm.onSubmit props st event in
  issued a = []
  ∧ AccountPasswordResetForm.passwordConfirmError (state_of a)
    = Some "The two password entered did not match.".

(** Two different new passwords typed, the current one left empty. *)
Definition edit_mismatch_no_current : AccountDetailsEdit.FormElements :=
  AccountDetailsEdit.mkForm (valid_field "Ada") (valid_field "Lovelace")
    (valid_field "") (valid_field "ada@example.com")
    missing_field (valid_field "hunter22") (valid_field "hunter23").

(** Two different new passwords typed, together with the current one. *)
Definition edit_mismatch_with_current : AccountDetailsEdit.FormElements :=
  AccountDetailsEdit.mkForm (valid_field "Ada") (valid_field "Lovelace")
    (valid_field "") (valid_field "ada@example.com")
    (valid_field "oldsecret") (valid_field "hunter22") (valid_field "hunter23").

(** The specification's statement (C3) for a mounted form: with a call in
    flight, a submit action puts no second call on the network. *)
Definition no_second_call {S} (submit : Mounted S → Mounted S)
    (i : Mounted S) : Prop :=
  pending i ≠ [] → length (pending (submit i)) = length (pending i).

Definition login_email_event : AccountLoginForm.FormElements :=
  AccountLoginForm.mkForm (valid_field "ada@example.com") missing_field.

Definition login_password_event : AccountLoginForm.FormElements :=
  AccountLoginForm.mkForm (valid_field "ada@example.com")
    (password_input "hunter22").

(** The login form after the email stage, a password typed and "Sign in"
    pressed once: the call is in flight. *)
Definition login_submitting : Mounted AccountLoginForm.State :=
  AccountLoginForm.run
    [AccountLoginForm.TypeEmail "ada@example.com";
     AccountLoginForm.Submit login_email_event;
     AccountLoginForm.TypePassword "hunter22";
     AccountLoginForm.Submit login_password_event].

(** On the account-details form, [saving] is set whenever a call is in
    flight, and at most one is. *)
Definition edit_exclusive (i : Mounted AccountDetailsEdit.State) : Prop :=
  length (pending i) ≤ 1
  ∧ (AccountDetailsEdit.saving (current i) = false → pending i = []).

Definition edit_valid_event : AccountDetailsEdit.FormElements :=
  AccountDetailsEdit.mkForm (valid_field "Ada") (valid_field "Lovelace")
    (valid_field "") (valid_field "ada@example.com")
    missing_field missing_field missing_field.

(** The edit form after "Save" was pressed once with valid fields. *)
Definition edit_submitting : Mounted AccountDetailsEdit.State :=
  AccountDetailsEdit.run edit_ada_ok [AccountDetailsEdit.Submit edit_valid_event].

(** The banner of the login form ([hasSubmitError && ...]). *)
Definition login_banner (st : AccountLoginForm.State) : option string :=
  if AccountLoginForm.hasSubmitError st
  then Some ("Sorry we did not recognize either your email or password. "
             +:+ "Please try to sign in again or create a new account.")
  else None.

(** The login form back at its email stage, everything cleared, with the
    sign-in failure banner up. *)
Definition login_failed : AccountLoginForm.State :=
  AccountLoginForm.mkState true true "" None "" None.

(** The specification's statement (C5) when the login call has returned
    [response]: an [error] field is there, so the form resets. *)
Definition error_field_resets (response : JsValue)
    (st : AccountLoginForm.State) : Prop :=
  (∃ props error, response = VObj props ∧ props !! "error" = Some error) →
  AccountLoginForm.checkPassword_resume (Fulfilled response) st
  = (login_failed, []).

(** The password stage of the login form, with credentials typed. *)
Definition login_password_stage : AccountLoginForm.State :=
  AccountLoginForm.mkState false false "ada@example.com" None "hunter22" None.

Definition best_sellers_unavailable (path : string) : Response :=
  mkResponse false 503 ("https://shop.example" +:+ path)
    (Rejected (mkJsError "SyntaxError" "Unexpected end of JSON input")).

(** A [PATCH] that clears the first name and changes the phone number. *)
Definition patch_clear_first_name : AccountRoute.HydrogenRequest :=
  AccountRoute.mkHydrogenRequest "PATCH"
    (Fulfilled
       (VObj (<["email" := VStr "ada@example.com"]>
                (<["phone" := VStr "+15555550100"]>
                   (<["firstName" := VStr ""]>
                      (<["lastName" := VStr "Lovelace"]>
                         (<["currentPassword" := VStr ""]>
                            {["newPassword" := VStr ""]}))))))).

Definition signed_in : option AccountRoute.Session :=
  Some (AccountRoute.mkSession (VStr "token-1")).

Definition patch_clear_first_name_customer : gmap string JsValue :=
  match AccountRoute.api (λ _ _ _, VUndefined) patch_clear_first_name signed_in with
  | AccountRoute.QueryShop customer _ _ => customer
  | _ => ∅
  end.

(** Both inputs are controlled ([value={password}],
    [value={passwordConfirm}]): at a submit event they hold what the state
    holds. *)
Definition controlled (st : AccountPasswordResetForm.State)
    (form : AccountPasswordResetForm.FormElements) : Prop :=
  value (AccountPasswordResetForm.form_password form)
  = AccountPasswordResetForm.password st
  ∧ value (AccountPasswordResetForm.form_passwordConfirm form)
    = AccountPasswordResetForm.passwordConfirm st.

(** The specification's statement (C10) for one validation run. *)
Definition confirm_message_is_length_message
    (st : AccountPasswordResetForm.State)
    (form : AccountPasswordResetForm.FormElements) : Prop :=
  controlled st form →
  valueMissing (validity (AccountPasswordResetForm.form_passwordConfirm form))
  = true →
  valid (validity (AccountPasswordResetForm.form_passwordConfirm form)) = false →
  value (AccountPasswordResetForm.form_password form) ≠ "" →
  valueMissing (validity (AccountPasswordResetForm.form_password form)) = false →
  AccountPasswordResetForm.passwordConfirmError
    (fst (AccountPasswordResetForm.passwordValidation form st))
  = Some "Passwords must be at least 6 characters".

(** A new password typed, the confirmation left empty. *)
Definition reset_confirm_empty_state : AccountPasswordResetForm.State :=
  AccountPasswordResetForm.mkState None "hunter22" None "" None.

Definition reset_confirm_empty_form : AccountPasswordResetForm.FormElements :=
  AccountPasswordResetForm.mkForm (valid_field "hunter22") missing_field.

(** An address id as the shop returns it, and one without a query part. *)
Definition address_gid : string :=
  "gid://shopify/MailingAddress/123?model_name=CustomerAddress".

Definition address_node : JsValue :=
  VObj (<["id" := VStr address_gid]> {["city" := VStr "London"]}).

Definition address_node_plain_id : JsValue :=
  VObj (<["id" := VStr "address-7"]> {["city" := VStr "London"]}).

(** A customer with one address and no orders, as the shop query answers. *)
Definition customer_ada : JsValue :=
  VObj (<["id" := VStr "gid://shopify/Customer/1"]>
          (<["firstName" := VStr "Ada"]>
             (<["lastName" := VStr "Lovelace"]>
                (<["email" := VStr "ada@example.com"]>
                   (<["addresses" := VArr [address_node]]>
                      {["orders" := VArr []]}))))).

Definition shop_data_ada (_ : AccountPage.Variables) : JsValue :=
  VObj (<["customer" := customer_ada]>
          (<["featuredCollections" := VArr []]>
             {["featuredProducts" := VArr []]})).

(** A connection already given as the array of its nodes. *)
Definition nodes_of (connection : JsValue) : JsValue :=
  match connection with
  | VArr _ => connection
  | _ => VArr []
  end.

(** A customer whose only address has no id. *)
Definition customer_address_without_id : JsValue :=
  VObj (<["id" := VStr "gid://shopify/Customer/2"]>
          {["addresses" := VArr [VObj {["city" := VStr "Paris"]}]]}).

Definition shop_data_address_without_id (_ : AccountPage.Variables) : JsValue :=
  VObj (<["customer" := customer_address_without_id]>
          (<["featuredCollections" := VArr []]>
             {["featuredProducts" := VArr []]})).

(** An email field the browser reports as malformed. *)
Definition login_bad_email_event : AccountLoginForm.FormElements :=
  AccountLoginForm.mkForm (mkInput "ada@" (mkValidity false false)) missing_field.

(** The fresh login form with "ada@" typed. *)
Definition login_typing_email : AccountLoginForm.State :=
  AccountLoginForm.setEmail "ada@" AccountLoginForm.initial.

(** A failed response whose body is the empty object. *)
Definition unauthorized_empty_object : Response :=
  mkResponse false 401 "https://shop.example/account/login" (Fulfilled (VObj ∅)).

(** A failed response without a JSON body. *)
Definition unauthorized_no_body : Response :=
  mkResponse false 401 "https://shop.example/account"
    (Rejected (mkJsError "SyntaxError" "Unexpected end of JSON input")).

Definition reset_props : AccountPasswordResetForm.Props :=
  AccountPasswordResetForm.mkProps "customer-1" "reset-token-1".

(** The reset form with the same new password typed twice. *)
Definition reset_typed_twice : AccountPasswordResetForm.State :=
  AccountPasswordResetForm.mkState None "hunter22" None "hunter22" None.

(** The reset form as the browser presents it at a submit event: both inputs
    are controlled and carry [required] and [minLength={8}]. *)
Definition reset_form_of (st : AccountPasswordResetForm.State)
  : AccountPasswordResetForm.FormElements :=
  AccountPasswordResetForm.mkForm
    (password_input (AccountPasswordResetForm.password st))
    (password_input (AccountPasswordResetForm.passwordConfirm st)).

(** The edit form while a save is in flight. *)
Definition edit_saving : AccountDetailsEdit.State :=
  AccountDetailsEdit.setSaving true edit_ada_ok.

(** The edit form after a save was rejected: the busy flag is still set and
    nothing is in flight. *)
Definition edit_stuck : Mounted AccountDetailsEdit.State :=
  settle_call 0 (Responded unauthorized_no_body) edit_submitting.

(** Two best sellers, as [/api/bestSellers] lists them. *)
Definition best_seller_board : JsValue :=
  VObj (<["id" := VStr "gid://shopify/Product/1"]> {["title" := VStr "Board"]}).

Definition best_seller_wax : JsValue :=
  VObj (<["id" := VStr "gid://shopify/Product/2"]> {["title" := VStr "Wax"]}).

Definition best_sellers_two (path : string) : Response :=
  mkResponse true 200 ("https://shop.example" +:+ path)
    (Fulfilled (VArr [best_seller_board; best_seller_wax])).

Definition best_sellers_none (path : string) : Response :=
  mkResponse true 200 ("https://shop.example" +:+ path) (Fulfilled (VArr [])).

(** A [PATCH] whose body names no field at all. *)
Definition patch_nothing : AccountRoute.HydrogenRequest :=
  AccountRoute.mkHydrogenRequest "PATCH" (Fulfilled (VObj ∅)).

Definition get_account : AccountRoute.HydrogenRequest :=
  AccountRoute.mkHydrogenRequest "GET" (Rejected (mkJsError "SyntaxError" "")).

(** A helper that reports no error. *)
Definition no_api_error (_ : string) (_ _ : JsValue) : JsValue := VUndefined.

(** The two methods the route accepts. *)
Definition patch_or_delete (method : string) : Prop :=
  method = "PATCH" ∨ method = "DELETE".

(** * Properties *)

(** ** Basic facts about the embedding *)

Lemma nonempty_true (s : string) : nonempty s = true ↔ s ≠ "".
Proof. destruct s; simpl; split; congruence. Qed.

Lemma nonempty_false (s : string) : nonempty s = false ↔ s = "".
Proof. destruct s; simpl; split; congruence. Qed.

Lemma dispatch_pending_length {S} (a : Async S) (i : Mounted S) :
  length (pending (dispatch a i)) = length (pending i) + length (issued a).
Proof.
  destruct a as [st|st call k]; simpl.
  - lia.
  - by rewrite length_app.
Qed.

(** ** The three adapters *)

Lemma callLoginApi_contract (email password : string) :
  adapter_contract (AccountLoginForm.callLoginApi email password).
Proof. by split. Qed.

Lemma callPasswordResetApi_contract (id resetToken password : string) :
  adapter_contract
    (AccountPasswordResetForm.callPasswordResetApi id resetToken password).
Proof. by split. Qed.

(** C4, as the claim states it, fails: when [fetch] rejects with
    "TypeError: Failed to fetch", [callAccountUpdateApi] does not return the
    stringified failure. *)
Lemma C4_account_update_transport_failure_not_stringified :
  ¬ adapter_contract
      (AccountDetailsEdit.callAccountUpdateApi
         "ada@example.com" "" "Ada" "Lovelace" "" "").
Proof.
  intros [_ H]. specialize (H failed_to_fetch). simpl in H.
  apply (f_equal (λ r, match r with
                        | Fulfilled v => get_prop v "error"
                        | Rejected _ => None
                        end)) in H.
  vm_compute in H. discriminate H.
Qed.

(** C4 (amended): every adapter returns [{}] on an HTTP success and whatever
    [res.json()] gives on an HTTP failure; when [fetch] itself fails, the
    login and reset adapters return [{error: error.toString()}] and the
    account-update adapter returns the fixed
    [{error: 'Error saving account. Please try again.'}]. *)
Theorem C4_adapter_results :
  (∀ email password,
      adapter_contract (AccountLoginForm.callLoginApi email password))
  ∧ (∀ id resetToken password,
      adapter_contract
        (AccountPasswordResetForm.callPasswordResetApi id resetToken password))
  ∧ (∀ email phone firstName lastName currentPassword newPassword o,
      settle
        (AccountDetailsEdit.callAccountUpdateApi
           email phone firstName lastName currentPassword newPassword) o
      = match o with
        | Responded res => if ok res then Fulfilled (VObj ∅) else json res
        | NetworkError _ =>
            Fulfilled
              (VObj {["error" := VStr "Error saving account. Please try again."]})
        end).
Proof.
  split; [|split].
  - apply callLoginApi_contract.
  - apply callPasswordResetApi_contract.
  - reflexivity.
Qed.

(** ** Validation gates the network call *)

Lemma login_gated st event : gated login_no_errors (AccountLoginForm.onSubmit st event).
Proof.
  unfold gated, login_no_errors, AccountLoginForm.onSubmit,
    AccountLoginForm.checkPassword, AccountLoginForm.checkEmail.
  destruct (AccountLoginForm.showEmailField st),
    (valid (validity (AccountLoginForm.form_email event))),
    (valid (validity (AccountLoginForm.form_password event)));
    simpl; split; intros H; try done; exfalso; by apply H.
Qed.

Lemma reset_gated props st event :
  gated reset_no_errors (AccountPasswordResetForm.onSubmit props st event).
Proof.
  unfold gated, reset_no_errors, AccountPasswordResetForm.onSubmit,
    AccountPasswordResetForm.passwordValidation.
  destruct (valid (validity (AccountPasswordResetForm.form_password event))),
    (valid (validity (AccountPasswordResetForm.form_passwordConfirm event))),
    (String.eqb (AccountPasswordResetForm.password st)
       (AccountPasswordResetForm.passwordConfirm st));
    simpl; split; intros H; try done; exfalso; by apply H.
Qed.

Lemma edit_gated st event :
  gated edit_no_errors (AccountDetailsEdit.onSubmit st event).
Proof.
  unfold gated, edit_no_errors, AccountDetailsEdit.onSubmit,
    AccountDetailsEdit.set_if_truthy, Utils.emailValidation,
    Utils.passwordValidation.
  destruct (valid (validity (AccountDetailsEdit.form_email event))),
    (nonempty (value (AccountDetailsEdit.form_currentPassword event))),
    (valid (validity (AccountDetailsEdit.form_currentPassword event))),
    (valueMissing (validity (AccountDetailsEdit.form_currentPassword event))),
    (valid (validity (AccountDetailsEdit.form_newPassword event))),
    (valueMissing (validity (AccountDetailsEdit.form_newPassword event))),
    (String.eqb (value (AccountDetailsEdit.form_newPassword event))
       (value (AccountDetailsEdit.form_newPassword2 event)));
    simpl; split; intros H; try done; exfalso; apply H; by repeat split.
Qed.

(** On the account-details form the errors are first computed into local
    variables: a call is issued only if every one that was computed is
    null. *)
Lemma edit_issued_only_if_validators_pass st event :
  issued (AccountDetailsEdit.onSubmit st event) ≠ [] →
  Utils.emailValidation (AccountDetailsEdit.form_email event) = None
  ∧ (value (AccountDetailsEdit.form_currentPassword event) ≠ "" →
     Utils.passwordValidation (AccountDetailsEdit.form_currentPassword event)
     = None
     ∧ Utils.passwordValidation (AccountDetailsEdit.form_newPassword event)
       = None
     ∧ value (AccountDetailsEdit.form_newPassword event)
       = value (AccountDetailsEdit.form_newPassword2 event)).
Proof.
  unfold AccountDetailsEdit.onSubmit, AccountDetailsEdit.set_if_truthy,
    Utils.emailValidation, Utils.passwordValidation.
  destruct (nonempty (value (AccountDetailsEdit.form_currentPassword event)))
    eqn:Hcur.
  - destruct (String.eqb_spec
                (value (AccountDetailsEdit.form_newPassword event))
                (value (AccountDetailsEdit.form_newPassword2 event)));
      destruct (valid (validity (AccountDetailsEdit.form_email event))),
        (valid (validity (AccountDetailsEdit.form_currentPassword event))),
        (valueMissing (validity (AccountDetailsEdit.form_currentPassword event))),
        (valid (validity (AccountDetailsEdit.form_newPassword event))),
        (valueMissing (validity (AccountDetailsEdit.form_newPassword event)));
      simpl; intros H; try done.
  - apply nonempty_false in Hcur.
    destruct (valid (validity (AccountDetailsEdit.form_email event)));
      simpl; intros H; try done.
Qed.

(** C1: on the login, password-reset and account-details forms, a submission
    puts a call on the network only if the form's validation errors are all
    null at that moment; with any error non-null the handler returns without
    calling the adapter. *)
Theorem C1_call_only_without_validation_errors :
  (∀ st event, gated login_no_errors (AccountLoginForm.onSubmit st event))
  ∧ (∀ props st event,
       gated reset_no_errors (AccountPasswordResetForm.onSubmit props st event))
  ∧ (∀ st event, gated edit_no_errors (AccountDetailsEdit.onSubmit st event))
  ∧ (∀ st event,
       issued (AccountDetailsEdit.onSubmit st event) ≠ [] →
       Utils.emailValidation (AccountDetailsEdit.form_email event) = None
       ∧ (value (AccountDetailsEdit.form_currentPassword event) ≠ "" →
          Utils.passwordValidation
            (AccountDetailsEdit.form_currentPassword event) = None
          ∧ Utils.passwordValidation
              (AccountDetailsEdit.form_newPassword event) = None
          ∧ value (AccountDetailsEdit.form_newPassword event)
            = value (AccountDetailsEdit.form_newPassword2 event))).
Proof.
  split; [|split; [|split]].
  - apply login_gated.
  - apply reset_gated.
  - apply edit_gated.
  - apply edit_issued_only_if_validators_pass.
Qed.

Lemma C1_witness_edit_bad_email :
  AccountDetailsEdit.onSubmit edit_ada edit_bad_email
  = Return (state_of (AccountDetailsEdit.onSubmit edit_ada edit_bad_email)).
Proof.
  apply (proj1 (proj2 (proj2 C1_call_only_without_validation_errors))).
  unfold edit_no_errors. vm_compute. intros [H _]. discriminate H.
Defined.

(** ** The password fields of the account-details form *)

Lemma edit_onSubmit_no_current_password st event :
  value (AccountDetailsEdit.form_currentPassword event) = "" →
  AccountDetailsEdit.onSubmit st event
  = let st1 :=
      AccountDetailsEdit.setNewPassword2Error None
        (AccountDetailsEdit.setNewPasswordError None
           (AccountDetailsEdit.setCurrentPasswordError None
              (AccountDetailsEdit.setEmailError None st))) in
    if valid (validity (AccountDetailsEdit.form_email event))
    then Await (AccountDetailsEdit.setSaving true st1)
           (AccountDetailsEdit.callAccountUpdateApi
              (AccountDetailsEdit.email st) (AccountDetailsEdit.phone st)
              (AccountDetailsEdit.firstName st) (AccountDetailsEdit.lastName st)
              "" (value (AccountDetailsEdit.form_newPassword event)))
           AccountDetailsEdit.onSubmit_resume
    else Return
           (AccountDetailsEdit.setEmailError (Some "Please enter a valid email") st1).
Proof.
  intros Hcur.
  unfold AccountDetailsEdit.onSubmit, AccountDetailsEdit.set_if_truthy,
    Utils.emailValidation.
  rewrite Hcur. simpl.
  by destruct (valid (validity (AccountDetailsEdit.form_email event))).
Qed.

(** C2, as the claim states it, fails: with [currentPassword] empty and
    "hunter22" typed as the new password, the request carries
    [newPassword: "hunter22"]. *)
Lemma C2_new_password_sent_without_current :
  ¬ no_password_sent_without_current edit_ada_ok edit_new_password_only.
Proof.
  intros H. destruct (H eq_refl) as (_ & _ & _ & Hsent).
  specialize (Hsent
    (request (AccountDetailsEdit.callAccountUpdateApi
                "ada@example.com" "" "Ada" "Lovelace" "" "hunter22"))
    "hunter22").
  assert (Hne : "hunter22" = "") by
    (apply Hsent; [vm_compute; left | right; vm_compute; set_solver]).
  discriminate Hne.
Qed.

(** C2 (amended): on the account-details form, when [currentPassword] is
    empty no password-related validation error is produced, whatever
    [newPassword] and [newPassword2] hold; if the email is valid the request
    is sent with an empty [currentPassword] and with [newPassword] carrying
    whatever the new-password field holds. *)
Theorem C2_empty_current_password_skips_password_validation :
  ∀ st event,
    value (AccountDetailsEdit.form_currentPassword event) = "" →
    let a := AccountDetailsEdit.onSubmit st event in
    AccountDetailsEdit.currentPasswordError (state_of a) = None
    ∧ AccountDetailsEdit.newPasswordError (state_of a) = None
    ∧ AccountDetailsEdit.newPassword2Error (state_of a) = None
    ∧ issued a
      = if valid (validity (AccountDetailsEdit.form_email event))
        then [mkRequest "/account" PATCH json_headers
                [("email", AccountDetailsEdit.email st);
                 ("phone", AccountDetailsEdit.phone st);
                 ("firstName", AccountDetailsEdit.firstName st);
                 ("lastName", AccountDetailsEdit.lastName st);
                 ("currentPassword", "");
                 ("newPassword",
                  value (AccountDetailsEdit.form_newPassword event))]]
        else [].
Proof.
  intros st event Hcur. simpl.
  rewrite (edit_onSubmit_no_current_password st event Hcur). simpl.
  by destruct (valid (validity (AccountDetailsEdit.form_email event))).
Qed.

Lemma C2_witness_new_password_only :
  issued (AccountDetailsEdit.onSubmit edit_ada_ok edit_new_password_only)
  = [mkRequest "/account" PATCH json_headers
       [("email", "ada@example.com"); ("phone", ""); ("firstName", "Ada");
        ("lastName", "Lovelace"); ("currentPassword", "");
        ("newPassword", "hunter22")]].
Proof.
  apply (C2_empty_current_password_skips_password_validation
           edit_ada_ok edit_new_password_only).
  reflexivity.
Defined.

(** ** Password confirmation *)

(** C7, as the claim states it, fails on the account-details form: with
    [currentPassword] empty, two different new passwords raise no mismatch
    message and the request is sent. *)
Lemma C7_mismatch_not_checked_without_current :
  ¬ edit_mismatch_blocks edit_ada_ok edit_mismatch_no_current.
Proof.
  intros H. destruct H as [Hissued _].
  - vm_compute. discriminate.
  - vm_compute in Hissued. discriminate Hissued.
Qed.

Lemma edit_mismatch_blocks_with_current st event :
  value (AccountDetailsEdit.form_currentPassword event) ≠ "" →
  edit_mismatch_blocks st event.
Proof.
  intros Hcur Hne.
  apply nonempty_true in Hcur. apply String.eqb_neq in Hne.
  unfold AccountDetailsEdit.onSubmit, AccountDetailsEdit.set_if_truthy,
    Utils.emailValidation, Utils.passwordValidation.
  rewrite Hcur, Hne.
  by destruct (valid (validity (AccountDetailsEdit.form_email event))),
    (valid (validity (AccountDetailsEdit.form_currentPassword event))),
    (valueMissing (validity (AccountDetailsEdit.form_currentPassword event))),
    (valid (validity (AccountDetailsEdit.form_newPassword event))),
    (valueMissing (validity (AccountDetailsEdit.form_newPassword event))).
Qed.

Lemma reset_mismatch_blocks_always props st event :
  reset_mismatch_blocks props st event.
Proof.
  intros Hne. apply String.eqb_neq in Hne.
  unfold AccountPasswordResetForm.onSubmit,
    AccountPasswordResetForm.passwordValidation.
  rewrite Hne.
  by destruct (valid (validity (AccountPasswordResetForm.form_password event))),
    (valid (validity (AccountPasswordResetForm.form_passwordConfirm event))).
Qed.

(** C7 (amended): on the password-reset form, whenever the two entered
    values differ the submission is blocked with "The two password entered
    did not match." and no call is made; on the account-details form the same
    holds, with "The two passwords entered did not match", whenever
    [currentPassword] is not empty. *)
Theorem C7_mismatch_blocks_submission :
  (∀ st event,
     value (AccountDetailsEdit.form_currentPassword event) ≠ "" →
     edit_mismatch_blocks st event)
  ∧ (∀ props st event, reset_mismatch_blocks props st event).
Proof.
  split.
  - apply edit_mismatch_blocks_with_current.
  - apply reset_mismatch_blocks_always.
Qed.

Lemma C7_witness_mismatch_with_current :
  issued (AccountDetailsEdit.onSubmit edit_ada_ok edit_mismatch_with_current) = []
  ∧ AccountDetailsEdit.newPassword2Error
      (state_of (AccountDetailsEdit.onSubmit edit_ada_ok edit_mismatch_with_current))
    = Some "The two passwords entered did not match".
Proof.
  apply (proj1 C7_mismatch_blocks_submission
           edit_ada_ok edit_mismatch_with_current).
  - vm_compute. discriminate.
  - vm_compute. discriminate.
Defined.

(** ** Repeated submit actions *)

(** C3, as the claim states it, fails on the login form: it has no busy
    flag, and pressing "Sign in" again while the first call is in flight
    starts a second one. *)
Lemma C3_login_second_submit_issues_second_call :
  ¬ no_second_call (AccountLoginForm.submit login_password_event) login_submitting.
Proof.
  intros H. unfold no_second_call in H.
  assert (Hlen : 2 = 1) by (apply H; vm_compute; discriminate).
  discriminate Hlen.
Qed.

Lemma edit_onSubmit_saving st event :
  match AccountDetailsEdit.onSubmit st event with
  | Return st' => AccountDetailsEdit.saving st' = AccountDetailsEdit.saving st
  | Await st' _ _ => AccountDetailsEdit.saving st' = true
  end.
Proof.
  unfold AccountDetailsEdit.onSubmit, AccountDetailsEdit.set_if_truthy,
    Utils.emailValidation, Utils.passwordValidation.
  by destruct (valid (validity (AccountDetailsEdit.form_email event))),
    (nonempty (value (AccountDetailsEdit.form_currentPassword event))),
    (valid (validity (AccountDetailsEdit.form_currentPassword event))),
    (valueMissing (validity (AccountDetailsEdit.form_currentPassword event))),
    (valid (validity (AccountDetailsEdit.form_newPassword event))),
    (valueMissing (validity (AccountDetailsEdit.form_newPassword event))),
    (String.eqb (value (AccountDetailsEdit.form_newPassword event))
       (value (AccountDetailsEdit.form_newPassword2 event))).
Qed.

Lemma edit_submit_exclusive event i :
  edit_exclusive i → edit_exclusive (AccountDetailsEdit.submit event i).
Proof.
  intros [Hlen Hidle]. unfold AccountDetailsEdit.submit.
  destruct (AccountDetailsEdit.saving (current i)) eqn:Hsaving;
    [split; [done | congruence]|].
  pose proof (edit_onSubmit_saving (current i) event) as Hs.
  destruct (AccountDetailsEdit.onSubmit (current i) event) as [st'|st' call k];
    unfold edit_exclusive; simpl.
  - rewrite Hs, Hsaving. by split.
  - rewrite (Hidle eq_refl), Hs. simpl. split; [lia | congruence].
Qed.

Lemma settle_call_exclusive n o (i : Mounted AccountDetailsEdit.State) :
  edit_exclusive i → edit_exclusive (settle_call n o i).
Proof.
  intros [Hlen Hidle]. unfold settle_call.
  destruct (pending i !! n) as [[call k]|] eqn:Hn; [|by split].
  assert (Hdel : length (delete n (pending i)) = 0).
  { rewrite length_delete by eauto. lia. }
  apply nil_length_inv in Hdel.
  unfold edit_exclusive. simpl. rewrite Hdel. simpl. split; [lia | done].
Qed.

Lemma edit_step_exclusive i a :
  edit_exclusive i → edit_exclusive (AccountDetailsEdit.step i a).
Proof.
  intros Hi. destruct a; simpl;
    [by destruct Hi .. | by apply edit_submit_exclusive
     | by apply settle_call_exclusive].
Qed.

Lemma edit_run_exclusive init actions :
  edit_exclusive (AccountDetailsEdit.run init actions).
Proof.
  unfold AccountDetailsEdit.run.
  assert (Hinit : edit_exclusive (mkMounted init [])).
  { split; simpl; [lia | done]. }
  revert Hinit. generalize (mkMounted init []).
  induction actions as [|a actions IH]; intros i Hi; simpl; [done|].
  apply IH. by apply edit_step_exclusive.
Qed.

Lemma edit_onSubmit_ignores_saving b st event :
  issued (AccountDetailsEdit.onSubmit (AccountDetailsEdit.setSaving b st) event)
  = issued (AccountDetailsEdit.onSubmit st event).
Proof.
  unfold AccountDetailsEdit.onSubmit, AccountDetailsEdit.set_if_truthy,
    Utils.emailValidation, Utils.passwordValidation.
  by destruct (valid (validity (AccountDetailsEdit.form_email event))),
    (nonempty (value (AccountDetailsEdit.form_currentPassword event))),
    (valid (validity (AccountDetailsEdit.form_currentPassword event))),
    (valueMissing (validity (AccountDetailsEdit.form_currentPassword event))),
    (valid (validity (AccountDetailsEdit.form_newPassword event))),
    (valueMissing (validity (AccountDetailsEdit.form_newPassword event))),
    (String.eqb (value (AccountDetailsEdit.form_newPassword event))
       (value (AccountDetailsEdit.form_newPassword2 event))).
Qed.

(** C3 (amended): on the account-details form, whatever the user and the
    network do, at most one call is in flight; [saving] holds while one is,
    and a submit action while [saving] holds changes nothing.  The disabled
    control is the only exclusion: [onSubmit] itself does not look at
    [saving].  The login and password-reset forms have no busy flag: there a
    submit action with valid fields puts one more call in flight, whatever is
    already pending. *)
Theorem C3_busy_flag_excludes_on_edit_form_only :
  (∀ _firstName _lastName _phone _email actions,
     let i :=
       AccountDetailsEdit.run
         (AccountDetailsEdit.initial _firstName _lastName _phone _email)
         actions in
     length (pending i) ≤ 1
     ∧ (pending i ≠ [] → AccountDetailsEdit.saving (current i) = true))
  ∧ (∀ event i,
       AccountDetailsEdit.saving (current i) = true →
       AccountDetailsEdit.submit event i = i)
  ∧ (∀ b st event,
       issued (AccountDetailsEdit.onSubmit (AccountDetailsEdit.setSaving b st) event)
       = issued (AccountDetailsEdit.onSubmit st event))
  ∧ (∀ event i,
       AccountLoginForm.showEmailField (current i) = false →
       valid (validity (AccountLoginForm.form_password event)) = true →
       length (pending (AccountLoginForm.submit event i))
       = S (length (pending i)))
  ∧ (∀ props event i,
       valid (validity (AccountPasswordResetForm.form_password event)) = true →
       valid (validity (AccountPasswordResetForm.form_passwordConfirm event))
       = true →
       AccountPasswordResetForm.password (current i)
       = AccountPasswordResetForm.passwordConfirm (current i) →
       length (pending (AccountPasswordResetForm.submit props event i))
       = S (length (pending i))).
Proof.
  repeat split.
  - apply edit_run_exclusive.
  - intros Hpending.
    destruct (edit_run_exclusive
                (AccountDetailsEdit.initial _firstName _lastName _phone _email)
                actions) as [_ Hidle].
    destruct (AccountDetailsEdit.saving _); [done|].
    by destruct Hpending; apply Hidle.
  - intros event i Hsaving. unfold AccountDetailsEdit.submit. by rewrite Hsaving.
  - apply edit_onSubmit_ignores_saving.
  - intros event i Hstage Hvalid.
    unfold AccountLoginForm.submit. rewrite dispatch_pending_length.
    unfold AccountLoginForm.onSubmit, AccountLoginForm.checkPassword.
    rewrite Hstage, Hvalid. simpl. lia.
  - intros props event i Hvalid Hvalid2 Heq.
    unfold AccountPasswordResetForm.submit. rewrite dispatch_pending_length.
    unfold AccountPasswordResetForm.onSubmit,
      AccountPasswordResetForm.passwordValidation.
    rewrite Hvalid, Hvalid2, Heq, String.eqb_refl. simpl. lia.
Qed.

Lemma C3_witness_edit_second_submit_ignored :
  length (pending edit_submitting) = 1
  ∧ AccountDetailsEdit.submit edit_valid_event edit_submitting = edit_submitting.
Proof.
  split; [reflexivity|].
  apply (proj1 (proj2 C3_busy_flag_excludes_on_edit_form_only)).
  reflexivity.
Defined.

(** ** The login flow *)

(** C5, as the claim states it, fails: a response whose [error] field is the
    empty string is treated as a success, and the form navigates to
    [/account] instead of resetting. *)
Lemma C5_empty_error_field_navigates :
  ¬ error_field_resets (VObj {["error" := VStr ""]}) login_password_stage.
Proof.
  intros H. unfold error_field_resets in H.
  assert (Hnav :
    AccountLoginForm.checkPassword_resume
      (Fulfilled (VObj {["error" := VStr ""]})) login_password_stage
    = (login_password_stage, [Navigate "/account"])) by reflexivity.
  rewrite H in Hnav; [discriminate Hnav|].
  exists {["error" := VStr ""]}, (VStr ""). split; reflexivity.
Qed.

(** C5 (amended): on the login form, when the authentication call returns a
    response whose [error] field is truthy (for instance a non-empty string),
    the form is reset to the email-entry stage, with email, password and
    both errors cleared and the email field shown again, and the sign-in
    failure banner is shown. *)
Theorem C5_truthy_error_resets_login_form :
  ∀ st response error,
    get_prop response "error" = Some error →
    truthy error = true →
    AccountLoginForm.checkPassword_resume (Fulfilled response) st
    = (login_failed, [])
    ∧ AccountLoginForm.showEmailField login_failed = true
    ∧ AccountLoginForm.email login_failed = ""
    ∧ AccountLoginForm.password login_failed = ""
    ∧ AccountLoginForm.emailError login_failed = None
    ∧ AccountLoginForm.passwordError login_failed = None
    ∧ is_Some (login_banner login_failed).
Proof.
  intros st response error Hget Htruthy.
  unfold AccountLoginForm.checkPassword_resume.
  rewrite Hget, Htruthy. repeat split. by eexists.
Qed.

Lemma C5_witness_invalid_credentials :
  AccountLoginForm.checkPassword_resume
    (Fulfilled (VObj {["error" := VStr "Invalid credentials"]}))
    login_password_stage
  = (login_failed, []).
Proof.
  apply (C5_truthy_error_resets_login_form login_password_stage
           (VObj {["error" := VStr "Invalid credentials"]})
           (VStr "Invalid credentials")).
  - reflexivity.
  - reflexivity.
Defined.

(** C6: in the password stage (reached once the email was accepted), a
    submission whose password field is valid puts exactly one request on the
    network, a POST to [/account/login] carrying the email and password the
    form holds; when the call returns [{}], the form navigates to
    [/account].  A typed password of at least eight characters is valid. *)
Theorem C6_valid_login_posts_credentials_once :
  ∀ st event,
    AccountLoginForm.showEmailField st = false →
    valid (validity (AccountLoginForm.form_password event)) = true →
    let a := AccountLoginForm.onSubmit st event in
    issued a
    = [mkRequest "/account/login" POST json_headers
         [("email", AccountLoginForm.email st);
          ("password", AccountLoginForm.password st)]]
    ∧ (∃ st' call,
         a = Await st' call AccountLoginForm.checkPassword_resume
         ∧ ∀ res, ok res = true → settle call (Responded res) = Fulfilled (VObj ∅))
    ∧ (∀ st2,
         AccountLoginForm.checkPassword_resume (Fulfilled (VObj ∅)) st2
         = (st2, [Navigate "/account"]))
    ∧ (∀ s, 8 ≤ String.length s → valid (validity (password_input s)) = true).
Proof.
  intros st event Hstage Hvalid. simpl.
  unfold AccountLoginForm.onSubmit, AccountLoginForm.checkPassword.
  rewrite Hstage, Hvalid. simpl. split; [done|]. split; [|split; [done|]].
  - eexists _, _. split; [reflexivity|]. simpl. by intros res ->.
  - intros s Hlen.
    change (nonempty s && (8 <=? String.length s) = true).
    apply andb_true_intro. split.
    + destruct s; [simpl in Hlen; lia | done].
    + by apply Nat.leb_le.
Qed.

Lemma C6_witness_ada_signs_in :
  issued (AccountLoginForm.onSubmit login_password_stage login_password_event)
  = [mkRequest "/account/login" POST json_headers
       [("email", "ada@example.com"); ("password", "hunter22")]].
Proof.
  apply (C6_valid_login_posts_credentials_once
           login_password_stage login_password_event).
  - reflexivity.
  - reflexivity.
Defined.

(** The whole flow from a fresh form: the email typed and accepted, the
    password typed and accepted, leaves exactly the login call in flight. *)
Lemma login_flow_issues_one_call e p ev1 ev2 :
  valid (validity (AccountLoginForm.form_email ev1)) = true →
  valid (validity (AccountLoginForm.form_password ev2)) = true →
  pending (AccountLoginForm.run
             [AccountLoginForm.TypeEmail e; AccountLoginForm.Submit ev1;
              AccountLoginForm.TypePassword p; AccountLoginForm.Submit ev2])
  = [(AccountLoginForm.callLoginApi e p, AccountLoginForm.checkPassword_resume)].
Proof.
  intros H1 H2.
  destruct ev1 as [[? [? ?]] ?], ev2 as [? [? [? ?]]].
  simpl in H1, H2. subst. reflexivity.
Qed.

(** ** The best-seller section *)

Lemma append_assoc (a b c : string) : (a +:+ b) +:+ c = a +:+ b +:+ c.
Proof.
  induction a as [|x a IH]; [reflexivity|].
  change (String x ((a +:+ b) +:+ c) = String x (a +:+ b +:+ c)).
  by rewrite IH.
Qed.

Lemma append_nil_r (a : string) : a +:+ "" = a.
Proof.
  induction a as [|x a IH]; [reflexivity|].
  change (String x (a +:+ "") = String x a). by rewrite IH.
Qed.

(** C8: when the fetch of [/api/bestSellers] comes back with a non-success
    status ([response.ok] false), the section renders nothing (no cards, no
    text) and exactly one error line is logged, which contains the response
    URL and the status code. *)
Theorem C8_failed_best_sellers_renders_nothing_and_logs_once :
  ∀ fetchSync,
    let response := fetchSync "/api/bestSellers" in
    ok response = false →
    ∃ line,
      CartEmpty.TopProducts fetchSync = (CartEmpty.RenderNull, [line])
      ∧ CartEmpty.contains line (url response)
      ∧ CartEmpty.contains line (pretty (status response)).
Proof.
  intros fetchSync response Hok.
  unfold CartEmpty.TopProducts. fold response. rewrite Hok. simpl.
  eexists. split; [reflexivity|]. split.
  - by exists "Unable to load top products ",
      (" returned a " +:+ pretty (status response)).
  - exists ("Unable to load top products " +:+ url response +:+ " returned a "), "".
    by rewrite append_nil_r, !append_assoc.
Qed.

Example best_sellers_unavailable_log :
  CartEmpty.TopProducts best_sellers_unavailable
  = (CartEmpty.RenderNull,
     ["Unable to load top products https://shop.example/api/bestSellers returned a 503"]).
Proof. reflexivity. Qed.

Lemma C8_witness_service_unavailable :
  ∃ line,
    CartEmpty.TopProducts best_sellers_unavailable = (CartEmpty.RenderNull, [line])
    ∧ CartEmpty.contains line "https://shop.example/api/bestSellers"
    ∧ CartEmpty.contains line "503".
Proof.
  apply (C8_failed_best_sellers_renders_nothing_and_logs_once
           best_sellers_unavailable).
  reflexivity.
Defined.

(** ** The [PATCH /account] route *)

Lemma lookup_assign_if_truthy k v (m : gmap string JsValue) key :
  AccountRoute.assign_if_truthy k v m !! key
  = if truthy v && bool_decide (k = key) then Some v else m !! key.
Proof.
  unfold AccountRoute.assign_if_truthy.
  destruct (truthy v); simpl; [|done].
  case_bool_decide; simplify_map_eq; done.
Qed.

(** The [customer] object the route builds from a request body. *)
Lemma customer_lookup body email phone firstName lastName newPassword key :
  get_prop body "email" = Some email →
  get_prop body "phone" = Some phone →
  get_prop body "firstName" = Some firstName →
  get_prop body "lastName" = Some lastName →
  get_prop body "newPassword" = Some newPassword →
  AccountRoute.assign_if_truthy "password" newPassword
    (AccountRoute.assign_if_truthy "lastName" lastName
       (AccountRoute.assign_if_truthy "firstName" firstName
          (AccountRoute.assign_if_truthy "phone" phone
             (AccountRoute.assign_if_truthy "email" email ∅)))) !! key
  = match AccountRoute.source_field key with
    | Some field =>
        match get_prop body field with
        | Some value => if truthy value then Some value else None
        | None => None
        end
    | None => None
    end.
Proof.
  intros He Hp Hf Hl Hn.
  rewrite !lookup_assign_if_truthy, lookup_empty.
  unfold AccountRoute.source_field.
  destruct (String.eqb_spec key "email") as [->|?];
    [rewrite He|
     destruct (String.eqb_spec key "phone") as [->|?];
     [rewrite Hp|
      destruct (String.eqb_spec key "firstName") as [->|?];
      [rewrite Hf|
       destruct (String.eqb_spec key "lastName") as [->|?];
       [rewrite Hl|
        destruct (String.eqb_spec key "password") as [->|?];
        [rewrite Hn|]]]]].
  1-5: by destruct (truthy newPassword), (truthy lastName),
         (truthy firstName), (truthy phone), (truthy email).
  rewrite !bool_decide_eq_false_2 by congruence.
  by rewrite !andb_false_r.
Qed.

(** C9: whenever the route sends the [customerUpdate] mutation, each of
    [email], [phone], [firstName], [lastName] and [newPassword] that is falsy
    in the request body is left out of the [customer] input and each truthy
    one is passed on unchanged; so every property of [customer] is a truthy
    value of the request, and none is the empty string. *)
Theorem C9_falsy_fields_omitted_from_customer_update :
  ∀ getApiErrorMessage request session customer token k,
    AccountRoute.api getApiErrorMessage request session
    = AccountRoute.QueryShop customer token k →
    ∃ body,
      AccountRoute.request_json request = Fulfilled body
      ∧ (∀ key field value,
           AccountRoute.source_field key = Some field →
           get_prop body field = Some value →
           customer !! key = if truthy value then Some value else None)
      ∧ (∀ key value,
           customer !! key = Some value →
           truthy value = true
           ∧ ∃ field, AccountRoute.source_field key = Some field
                      ∧ get_prop body field = Some value)
      ∧ (∀ key, customer !! key ≠ Some (VStr "")).
Proof.
  intros g request session customer token k.
  unfold AccountRoute.api.
  destruct (_ && _); [discriminate|].
  destruct session as [session|]; [|discriminate].
  destruct (negb _); [discriminate|].
  destruct (AccountRoute.request_json request) as [body|]; [|discriminate].
  destruct (get_prop body "email") as [email|] eqn:He; [|discriminate].
  destruct (get_prop body "phone") as [phone|] eqn:Hp; [|discriminate].
  destruct (get_prop body "firstName") as [firstName|] eqn:Hf; [|discriminate].
  destruct (get_prop body "lastName") as [lastName|] eqn:Hl; [|discriminate].
  destruct (get_prop body "newPassword") as [newPassword|] eqn:Hn; [|discriminate].
  intros Hrun. injection Hrun as <- _ _.
  pose proof (λ key, customer_lookup body email phone firstName lastName
                       newPassword key He Hp Hf Hl Hn) as Hlookup.
  assert (Hsome : ∀ key value,
    AccountRoute.assign_if_truthy "password" newPassword
      (AccountRoute.assign_if_truthy "lastName" lastName
         (AccountRoute.assign_if_truthy "firstName" firstName
            (AccountRoute.assign_if_truthy "phone" phone
               (AccountRoute.assign_if_truthy "email" email ∅)))) !! key
    = Some value →
    truthy value = true
    ∧ ∃ field, AccountRoute.source_field key = Some field
               ∧ get_prop body field = Some value).
  { intros key value. rewrite Hlookup.
    destruct (AccountRoute.source_field key) as [field|]; [|discriminate].
    destruct (get_prop body field) as [v|] eqn:Hv; [|discriminate].
    destruct (truthy v) eqn:Htruthy; [|discriminate].
    intros [= <-]. split; [done|]. by exists field. }
  exists body. split; [done|]. split; [|split].
  - intros key field value Hsrc Hget. by rewrite Hlookup, Hsrc, Hget.
  - exact Hsome.
  - intros key Hempty. by destruct (Hsome key _ Hempty) as [Htruthy _].
Qed.

Example patch_clear_first_name_sends :
  patch_clear_first_name_customer
  = <["lastName" := VStr "Lovelace"]>
      (<["phone" := VStr "+15555550100"]>
         {["email" := VStr "ada@example.com"]}).
Proof. reflexivity. Qed.

Lemma C9_witness_first_name_cannot_be_cleared :
  patch_clear_first_name_customer !! "firstName" ≠ Some (VStr "").
Proof.
  destruct (C9_falsy_fields_omitted_from_customer_update
              (λ _ _ _, VUndefined) patch_clear_first_name signed_in
              patch_clear_first_name_customer (VStr "token-1")
              (λ data errors, AccountRoute.mkHttpResponse AccountRoute.BodyNull 200 [])
              eq_refl) as (body & _ & _ & _ & Hnonempty).
  apply Hnonempty.
Defined.

(** ** The confirm-field message of the password-reset form *)

(** C10, as the claim states it, fails: with the confirmation empty and the
    password typed, the two values differ, and the mismatch message
    replaces the one chosen for the invalid confirm field. *)
Lemma C10_confirm_empty_shows_mismatch_message :
  ¬ confirm_message_is_length_message
      reset_confirm_empty_state reset_confirm_empty_form.
Proof.
  intros H. unfold confirm_message_is_length_message in H.
  assert (Hshown :
    AccountPasswordResetForm.passwordConfirmError
      (fst (AccountPasswordResetForm.passwordValidation
              reset_confirm_empty_form reset_confirm_empty_state))
    = Some "The two password entered did not match.") by reflexivity.
  rewrite H in Hshown; try reflexivity.
  - discriminate Hshown.
  - by split.
  - discriminate.
Qed.

(** C10 (amended): in the password-reset form, the message chosen for an
    invalid [passwordConfirm] field is selected by [validity.valueMissing] of
    the primary password field ("Please re-enter a password" when that one is
    missing, "Passwords must be at least 6 characters" otherwise), and it is
    the confirm-field message only when the two entered values are equal;
    when they differ, "The two password entered did not match." replaces it.
    So with [passwordConfirm] empty and the primary password not empty, the
    confirm-field message is the mismatch message. *)
Theorem C10_confirm_message_selected_by_primary_then_overridden :
  (∀ st form,
     AccountPasswordResetForm.passwordConfirmError
       (fst (AccountPasswordResetForm.passwordValidation form st))
     = if negb (String.eqb (AccountPasswordResetForm.password st)
                           (AccountPasswordResetForm.passwordConfirm st))
       then Some "The two password entered did not match."
       else if valid (validity (AccountPasswordResetForm.form_passwordConfirm form))
       then None
       else if valueMissing
                 (validity (AccountPasswordResetForm.form_password form))
       then Some "Please re-enter a password"
       else Some "Passwords must be at least 6 characters")
  ∧ (∀ st form,
       controlled st form →
       value (AccountPasswordResetForm.form_passwordConfirm form) = "" →
       value (AccountPasswordResetForm.form_password form) ≠ "" →
       AccountPasswordResetForm.passwordConfirmError
         (fst (AccountPasswordResetForm.passwordValidation form st))
       = Some "The two password entered did not match.").
Proof.
  assert (Hshown : ∀ st form,
    AccountPasswordResetForm.passwordConfirmError
      (fst (AccountPasswordResetForm.passwordValidation form st))
    = if negb (String.eqb (AccountPasswordResetForm.password st)
                          (AccountPasswordResetForm.passwordConfirm st))
      then Some "The two password entered did not match."
      else if valid (validity (AccountPasswordResetForm.form_passwordConfirm form))
      then None
      else if valueMissing
                (validity (AccountPasswordResetForm.form_password form))
      then Some "Please re-enter a password"
      else Some "Passwords must be at least 6 characters").
  { intros st form. unfold AccountPasswordResetForm.passwordValidation.
    by destruct (String.eqb _ _),
      (valid (validity (AccountPasswordResetForm.form_password form))),
      (valid (validity (AccountPasswordResetForm.form_passwordConfirm form))),
      (valueMissing (validity (AccountPasswordResetForm.form_password form))). }
  split; [exact Hshown|].
  intros st form [Hpw Hconfirm] Hempty Hne.
  rewrite Hshown.
  assert (Hdiff : AccountPasswordResetForm.password st
                  ≠ AccountPasswordResetForm.passwordConfirm st)
    by congruence.
  apply String.eqb_neq in Hdiff. by rewrite Hdiff.
Qed.

Lemma C10_witness_confirm_left_empty :
  AccountPasswordResetForm.passwordConfirmError
    (fst (AccountPasswordResetForm.passwordValidation
            reset_confirm_empty_form reset_confirm_empty_state))
  = Some "The two password entered did not match.".
Proof.
  apply (proj2 C10_confirm_message_selected_by_primary_then_overridden
           reset_confirm_empty_state reset_confirm_empty_form).
  - split; reflexivity.
  - reflexivity.
  - vm_compute. discriminate.
Defined.

(** * Further properties of the code *)

(** ** Address ids on the account page *)

Lemma append_cons a (s t : string) : String a s +:+ t = String a (s +:+ t).
Proof. reflexivity. Qed.

Lemma lastIndexOf_lower (s : string) c : (-1 ≤ lastIndexOf s c)%Z.
Proof.
  induction s as [|a s IH]; simpl; [lia|].
  destruct (0 <=? lastIndexOf s c)%Z eqn:H; [apply Z.leb_le in H; lia|].
  destruct (Ascii.eqb a c); lia.
Qed.

Lemma lastIndexOf_absent (s : string) c :
  occurs c s = false → lastIndexOf s c = (-1)%Z.
Proof.
  induction s as [|a s IH]; simpl; [done|].
  intros [Ha Hs]%orb_false_elim. rewrite (IH Hs), Ha. done.
Qed.

Lemma lastIndexOf_last (pre suf : string) c :
  occurs c suf = false →
  lastIndexOf (pre +:+ String c suf) c = Z.of_nat (String.length pre).
Proof.
  intros Hsuf. induction pre as [|a pre IH].
  - change (lastIndexOf (String c suf) c = 0%Z). simpl.
    rewrite (lastIndexOf_absent _ _ Hsuf), Ascii.eqb_refl. done.
  - rewrite append_cons. simpl lastIndexOf. rewrite IH.
    destruct (0 <=? Z.of_nat (String.length pre))%Z eqn:H;
      [simpl String.length; lia | apply Z.leb_gt in H; lia].
Qed.

Lemma length_append (s t : string) :
  String.length (s +:+ t) = String.length s + String.length t.
Proof.
  induction s as [|a s IH]; [done|].
  rewrite append_cons. simpl. by rewrite IH.
Qed.

Lemma substring_prefix (pre rest : string) :
  String.substring 0 (String.length pre) (pre +:+ rest) = pre.
Proof.
  induction pre as [|a pre IH]; [by destruct rest|].
  rewrite append_cons. simpl. by rewrite IH.
Qed.

Lemma substring_is_prefix (m : nat) (s : string) :
  ∃ rest, s = String.substring 0 m s +:+ rest.
Proof.
  revert m. induction s as [|a s IH]; intros [|m]; simpl.
  - by exists "".
  - by exists "".
  - by exists (String a s).
  - destruct (IH m) as [rest Hrest]. exists rest.
    rewrite append_cons. by rewrite <- Hrest.
Qed.

(** X1: the id shown for an address is the part of the shop's id before its
    last question mark; whatever follows that question mark is dropped. *)
Theorem strip_query_cuts_at_last_question_mark :
  ∀ pre suf,
    occurs "?" suf = false →
    AccountPage.strip_query (pre +:+ "?" +:+ suf) = pre.
Proof.
  intros pre suf Hsuf. unfold AccountPage.strip_query, substring.
  change ("?" +:+ suf) with (String "?"%char suf).
  rewrite (lastIndexOf_last pre suf _ Hsuf).
  rewrite length_append. simpl String.length.
  unfold clamp.
  replace (Z.to_nat (Z.min (Z.max 0 0) (Z.of_nat (String.length pre + S (String.length suf)))))
    with 0 by lia.
  replace (Z.to_nat
             (Z.min (Z.max (Z.of_nat (String.length pre)) 0)
                (Z.of_nat (String.length pre + S (String.length suf)))))
    with (String.length pre) by lia.
  replace (0 `min` String.length pre) with 0 by lia.
  replace (0 `max` String.length pre - 0) with (String.length pre) by lia.
  apply substring_prefix.
Qed.

Lemma strip_query_witness_gid :
  AccountPage.strip_query address_gid = "gid://shopify/MailingAddress/123".
Proof.
  apply (strip_query_cuts_at_last_question_mark
           "gid://shopify/MailingAddress/123" "model_name=CustomerAddress").
  reflexivity.
Defined.

(** X2: an id without any question mark is cut down to the empty string
    ([lastIndexOf] gives [-1], which [substring] reads as [0]). *)
Theorem strip_query_without_question_mark_is_empty :
  ∀ id, occurs "?" id = false → AccountPage.strip_query id = "".
Proof.
  intros id Hid. unfold AccountPage.strip_query, substring.
  rewrite (lastIndexOf_absent _ _ Hid). unfold clamp.
  replace (Z.to_nat (Z.min (Z.max 0 0) (Z.of_nat (String.length id)))) with 0
    by lia.
  replace (Z.to_nat (Z.min (Z.max (-1) 0) (Z.of_nat (String.length id))))
    with 0 by lia.
  by destruct id.
Qed.

Lemma strip_query_witness_plain_id : AccountPage.strip_query "address-7" = "".
Proof.
  apply (strip_query_without_question_mark_is_empty "address-7").
  reflexivity.
Defined.

(** X3: an address entry keeps everything the shop sent: the uncut id is
    stored as [originalId], [id] becomes the cut id, and every other
    property is passed on unchanged.  An entry is only produced for an
    object whose [id] is a string. *)
Theorem with_original_id_keeps_the_address :
  ∀ address entry,
    AccountPage.with_original_id address = Some entry →
    ∃ props id,
      address = VObj props
      ∧ props !! "id" = Some (VStr id)
      ∧ get_prop entry "originalId" = Some (VStr id)
      ∧ get_prop entry "id" = Some (VStr (AccountPage.strip_query id))
      ∧ ∀ k, k ≠ "id" → k ≠ "originalId" →
             get_prop entry k = get_prop address k.
Proof.
  intros address entry. unfold AccountPage.with_original_id.
  destruct address as [| | | | | |props]; try discriminate.
  destruct (props !! "id") as [[| | | |id| |]|] eqn:Hid; try discriminate.
  intros [= <-]. exists props, id. repeat split; [done|..].
  - simpl. by rewrite lookup_insert_eq.
  - simpl. rewrite lookup_insert_ne by done. by rewrite lookup_insert_eq.
  - intros k Hk1 Hk2. simpl. by rewrite !lookup_insert_ne by done.
Qed.

Lemma with_original_id_witness_london :
  ∃ props id,
    address_node = VObj props
    ∧ props !! "id" = Some (VStr id)
    ∧ get_prop
        (VObj (<["originalId" := VStr address_gid]>
                 (<["id" := VStr "gid://shopify/MailingAddress/123"]>
                    (<["id" := VStr address_gid]> {["city" := VStr "London"]}))))
        "originalId" = Some (VStr id)
    ∧ get_prop
        (VObj (<["originalId" := VStr address_gid]>
                 (<["id" := VStr "gid://shopify/MailingAddress/123"]>
                    (<["id" := VStr address_gid]> {["city" := VStr "London"]}))))
        "id" = Some (VStr (AccountPage.strip_query id))
    ∧ ∀ k, k ≠ "id" → k ≠ "originalId" →
           get_prop
             (VObj (<["originalId" := VStr address_gid]>
                      (<["id" := VStr "gid://shopify/MailingAddress/123"]>
                         (<["id" := VStr address_gid]>
                            {["city" := VStr "London"]}))))
             k = get_prop address_node k.
Proof.
  apply (with_original_id_keeps_the_address address_node).
  reflexivity.
Defined.

(** ** The account page *)

Lemma js_or_array_truthy (v : JsValue) : truthy (js_or v (VArr [])) = true.
Proof. unfold js_or. by destruct (truthy v) eqn:Hv. Qed.

Lemma get_prop_truthy (v : JsValue) (k : string) :
  truthy v = true → get_prop v k = Some (opt_prop v k).
Proof. by destruct v. Qed.

Lemma authenticated_children flattenConnection customer addresses
    defaultAddress featuredCollections featuredProducts children :
  AccountPage.AuthenticatedAccount flattenConnection customer addresses
    defaultAddress featuredCollections featuredProducts = Some children →
  ∃ heading orders firstName lastName phone email,
    children
    = [AccountPage.Seo; AccountPage.PageHeader heading;
       AccountPage.AccountOrderHistory orders;
       AccountPage.AccountDetails firstName lastName phone email;
       AccountPage.AccountAddressBook defaultAddress addresses]
    ∧ truthy orders = true
    ∧ (truthy customer = true → heading ≠ AccountPage.AccountDetailsHeading).
Proof.
  unfold AccountPage.AuthenticatedAccount. intros H.
  destruct (get_prop customer "firstName") as [firstName|]; [|discriminate].
  destruct (get_prop customer "lastName") as [lastName|]; [|discriminate].
  destruct (get_prop customer "phone") as [phone|]; [|discriminate].
  destruct (get_prop customer "email") as [email|]; [|discriminate].
  simpl in H. injection H as <-.
  unfold AccountPage.and_children.
  rewrite js_or_array_truthy. simpl.
  eexists _, _, _, _, _, _. split; [reflexivity|]. split.
  - apply js_or_array_truthy.
  - intros ->. by destruct (truthy (opt_prop customer "firstName")).
Qed.

(** X4: whatever the customer's orders are, the account page shows the order
    history section and never the featured collections or the product
    swimlane: [flattenConnection(...) || []] is always truthy. *)
Theorem account_page_always_shows_orders_never_featured :
  ∀ flattenConnection customer addresses defaultAddress featuredCollections
    featuredProducts children,
    AccountPage.AuthenticatedAccount flattenConnection customer addresses
      defaultAddress featuredCollections featuredProducts = Some children →
    (∃ orders, AccountPage.AccountOrderHistory orders ∈ children)
    ∧ (∀ data, AccountPage.FeaturedCollections data ∉ children)
    ∧ (∀ data, AccountPage.ProductSwimlane data ∉ children).
Proof.
  intros fc customer addresses defaultAddress f1 f2 children H.
  destruct (authenticated_children _ _ _ _ _ _ _ H)
    as (heading & orders & fn & ln & ph & em & -> & _ & _).
  split; [exists orders; set_solver|].
  split; intros data Hin; repeat (apply elem_of_cons in Hin as [Hin|Hin];
    [discriminate Hin|]); by apply elem_of_nil in Hin.
Qed.

Lemma account_page_witness_no_orders :
  (∃ orders,
     AccountPage.AccountOrderHistory orders
     ∈ [AccountPage.Seo; AccountPage.PageHeader (AccountPage.Welcome (VStr "Ada"));
        AccountPage.AccountOrderHistory (VArr []);
        AccountPage.AccountDetails (VStr "Ada") (VStr "Lovelace") VUndefined
          (VStr "ada@example.com");
        AccountPage.AccountAddressBook VUndefined []])
  ∧ (∀ data,
       AccountPage.FeaturedCollections data
       ∉ [AccountPage.Seo; AccountPage.PageHeader (AccountPage.Welcome (VStr "Ada"));
          AccountPage.AccountOrderHistory (VArr []);
          AccountPage.AccountDetails (VStr "Ada") (VStr "Lovelace") VUndefined
            (VStr "ada@example.com");
          AccountPage.AccountAddressBook VUndefined []])
  ∧ (∀ data,
       AccountPage.ProductSwimlane data
       ∉ [AccountPage.Seo; AccountPage.PageHeader (AccountPage.Welcome (VStr "Ada"));
          AccountPage.AccountOrderHistory (VArr []);
          AccountPage.AccountDetails (VStr "Ada") (VStr "Lovelace") VUndefined
            (VStr "ada@example.com");
          AccountPage.AccountAddressBook VUndefined []]).
Proof.
  apply (account_page_always_shows_orders_never_featured
           nodes_of customer_ada [] VUndefined (VArr []) (VArr [])).
  reflexivity.
Defined.

Lemma account_run flattenConnection token languageCode countryCode useShopQuery :
  truthy token = true →
  ∀ customer featuredCollections featuredProducts,
    get_prop (useShopQuery (AccountPage.mkVariables token languageCode countryCode))
      "customer" = Some customer →
    get_prop (useShopQuery (AccountPage.mkVariables token languageCode countryCode))
      "featuredCollections" = Some featuredCollections →
    get_prop (useShopQuery (AccountPage.mkVariables token languageCode countryCode))
      "featuredProducts" = Some featuredProducts →
    truthy customer = true →
    AccountPage.Account flattenConnection token languageCode countryCode useShopQuery
    = match flattenConnection (opt_prop customer "addresses") with
      | VArr nodes =>
          match mapM AccountPage.with_original_id nodes,
                AccountPage.default_address_id customer with
          | Some addresses, Some defaultAddress =>
              match AccountPage.AuthenticatedAccount flattenConnection customer
                      addresses defaultAddress
                      (flattenConnection featuredCollections)
                      (flattenConnection featuredProducts) with
              | Some children =>
                  AccountPage.Page (opt_prop customer "id") children
              | None => AccountPage.Throws
              end
          | _, _ => AccountPage.Throws
          end
      | _ => AccountPage.Throws
      end.
Proof.
  intros Htoken customer f1 f2 Hc Hf1 Hf2 Hcustomer.
  unfold AccountPage.Account. by rewrite Htoken, Hc, Hf1, Hf2, Hcustomer.
Qed.

(** X5: the account page is rendered only for a session that holds a token
    and a customer the shop query found, with that customer's id reported;
    without a token the visitor is sent to [/account/login] whatever the
    shop would answer, and every redirect goes there. *)
Theorem account_page_needs_token_and_customer :
  ∀ flattenConnection token languageCode countryCode useShopQuery,
    (truthy token = false →
     AccountPage.Account flattenConnection token languageCode countryCode
       useShopQuery = AccountPage.Redirect "/account/login")
    ∧ match AccountPage.Account flattenConnection token languageCode
              countryCode useShopQuery with
      | AccountPage.Page customerId children =>
          truthy token = true
          ∧ ∃ customer,
              get_prop
                (useShopQuery
                   (AccountPage.mkVariables token languageCode countryCode))
                "customer" = Some customer
              ∧ truthy customer = true
              ∧ customerId = opt_prop customer "id"
      | AccountPage.Redirect to => to = "/account/login"
      | AccountPage.Throws => truthy token = true
      end.
Proof.
  intros fc token l c q. unfold AccountPage.Account.
  destruct (truthy token) eqn:Htoken; simpl; [|done].
  split; [done|].
  destruct (get_prop (q _) "customer") as [customer|] eqn:Hc; [|done].
  destruct (get_prop (q _) "featuredCollections") as [f1|]; [|done].
  destruct (get_prop (q _) "featuredProducts") as [f2|]; [|done].
  destruct (truthy customer) eqn:Hcustomer; simpl; [|done].
  destruct (fc (opt_prop customer "addresses")); try done.
  destruct (mapM _ _); [|done].
  destruct (AccountPage.default_address_id customer); [|done].
  destruct (AccountPage.AuthenticatedAccount _ _ _ _ _ _); [|done].
  split; [done|]. by exists customer.
Qed.

Lemma account_page_witness_signed_out :
  AccountPage.Account nodes_of VUndefined "EN" "GB" shop_data_ada
  = AccountPage.Redirect "/account/login".
Proof.
  apply (account_page_needs_token_and_customer
           nodes_of VUndefined "EN" "GB" shop_data_ada).
  reflexivity.
Defined.

(** X6: a rendered account page lists one address-book entry per address
    node of the customer, in the same order, each made by the id-cutting
    callback. *)
Theorem account_page_lists_every_address :
  ∀ flattenConnection token languageCode countryCode useShopQuery
    customerId children,
    AccountPage.Account flattenConnection token languageCode countryCode
      useShopQuery = AccountPage.Page customerId children →
    ∃ customer nodes defaultAddress addresses,
      get_prop
        (useShopQuery (AccountPage.mkVariables token languageCode countryCode))
        "customer" = Some customer
      ∧ flattenConnection (opt_prop customer "addresses") = VArr nodes
      ∧ AccountPage.AccountAddressBook defaultAddress addresses ∈ children
      ∧ length addresses = length nodes
      ∧ Forall2 (λ node entry, AccountPage.with_original_id node = Some entry)
          nodes addresses.
Proof.
  intros fc token l c q cid children. unfold AccountPage.Account.
  destruct (truthy token); simpl; [|discriminate].
  destruct (get_prop (q _) "customer") as [customer|] eqn:Hc; [|discriminate].
  destruct (get_prop (q _) "featuredCollections") as [f1|]; [|discriminate].
  destruct (get_prop (q _) "featuredProducts") as [f2|]; [|discriminate].
  destruct (truthy customer); simpl; [|discriminate].
  destruct (fc (opt_prop customer "addresses")) as [| | | | |nodes|] eqn:Hnodes;
    try discriminate.
  destruct (mapM _ nodes) as [addresses|] eqn:Hmap; [|discriminate].
  destruct (AccountPage.default_address_id customer) as [d|]; [|discriminate].
  destruct (AccountPage.AuthenticatedAccount _ _ _ _ _ _) as [cs|] eqn:Hauth;
    [|discriminate].
  intros [= <- <-].
  destruct (authenticated_children _ _ _ _ _ _ _ Hauth)
    as (heading & orders & fn & ln & ph & em & -> & _ & _).
  apply mapM_Some in Hmap.
  exists customer, nodes, d, addresses. repeat split; try done.
  - set_solver.
  - symmetry. by eapply Forall2_length.
Qed.

Lemma account_page_witness_one_address :
  ∃ customer nodes defaultAddress addresses,
    get_prop (shop_data_ada (AccountPage.mkVariables (VStr "token-1") "EN" "GB"))
      "customer" = Some customer
    ∧ nodes_of (opt_prop customer "addresses") = VArr nodes
    ∧ AccountPage.AccountAddressBook defaultAddress addresses
      ∈ match AccountPage.Account nodes_of (VStr "token-1") "EN" "GB"
                shop_data_ada with
        | AccountPage.Page _ children => children
        | _ => []
        end
    ∧ length addresses = length nodes
    ∧ Forall2 (λ node entry, AccountPage.with_original_id node = Some entry)
        nodes addresses.
Proof.
  refine (account_page_lists_every_address
            nodes_of (VStr "token-1") "EN" "GB" shop_data_ada
            (VStr "gid://shopify/Customer/1") _ _).
  reflexivity.
Defined.

(** X7: one address node without a string [id] is enough to make the whole
    account page throw instead of rendering. *)
Theorem account_page_throws_on_address_without_id :
  ∀ flattenConnection token languageCode countryCode useShopQuery
    customer featuredCollections featuredProducts nodes node,
    truthy token = true →
    get_prop (useShopQuery (AccountPage.mkVariables token languageCode countryCode))
      "customer" = Some customer →
    get_prop (useShopQuery (AccountPage.mkVariables token languageCode countryCode))
      "featuredCollections" = Some featuredCollections →
    get_prop (useShopQuery (AccountPage.mkVariables token languageCode countryCode))
      "featuredProducts" = Some featuredProducts →
    truthy customer = true →
    flattenConnection (opt_prop customer "addresses") = VArr nodes →
    node ∈ nodes →
    (∀ id, get_prop node "id" ≠ Some (VStr id)) →
    AccountPage.Account flattenConnection token languageCode countryCode
      useShopQuery = AccountPage.Throws.
Proof.
  intros fc token l c q customer f1 f2 nodes node
    Htoken Hc Hf1 Hf2 Hcustomer Hnodes Hin Hid.
  rewrite (account_run fc token l c q Htoken customer f1 f2 Hc Hf1 Hf2 Hcustomer).
  rewrite Hnodes.
  assert (Hnone : mapM AccountPage.with_original_id nodes = None).
  { apply mapM_None, Exists_exists. exists node. split; [done|].
    unfold AccountPage.with_original_id.
    destruct node as [| | | | | |props]; try done.
    destruct (props !! "id") as [[| | | |id| |]|] eqn:Hp; try done.
    exfalso. apply (Hid id). simpl. by rewrite Hp. }
  by rewrite Hnone.
Qed.

Lemma account_page_witness_address_without_id :
  AccountPage.Account nodes_of (VStr "token-1") "EN" "GB"
    shop_data_address_without_id = AccountPage.Throws.
Proof.
  apply (account_page_throws_on_address_without_id
           nodes_of (VStr "token-1") "EN" "GB" shop_data_address_without_id
           customer_address_without_id (VArr []) (VArr [])
           [VObj {["city" := VStr "Paris"]}] (VObj {["city" := VStr "Paris"]})).
  - reflexivity.
  - reflexivity.
  - reflexivity.
  - reflexivity.
  - reflexivity.
  - reflexivity.
  - set_solver.
  - intros id. vm_compute. discriminate.
Defined.

(** ** The login form, beyond the claims *)

(** X8: in the email stage a submission never reaches the network.  A valid
    email field moves the form to the password stage with no error; an
    invalid one keeps the email stage and shows "Please enter a valid
    email". *)
Theorem login_email_stage_never_calls :
  ∀ st event,
    AccountLoginForm.showEmailField st = true →
    let a := AccountLoginForm.onSubmit st event in
    issued a = []
    ∧ AccountLoginForm.passwordError (state_of a) = None
    ∧ AccountLoginForm.showEmailField (state_of a)
      = negb (valid (validity (AccountLoginForm.form_email event)))
    ∧ AccountLoginForm.emailError (state_of a)
      = if valid (validity (AccountLoginForm.form_email event))
        then None
        else Some "Please enter a valid email".
Proof.
  intros st event Hstage. simpl.
  unfold AccountLoginForm.onSubmit, AccountLoginForm.checkEmail.
  rewrite Hstage.
  by destruct (valid (validity (AccountLoginForm.form_email event))).
Qed.

Lemma login_email_stage_witness_bad_email :
  issued (AccountLoginForm.onSubmit login_typing_email login_bad_email_event) = []
  ∧ AccountLoginForm.passwordError
      (state_of (AccountLoginForm.onSubmit login_typing_email login_bad_email_event))
    = None
  ∧ AccountLoginForm.showEmailField
      (state_of (AccountLoginForm.onSubmit login_typing_email login_bad_email_event))
    = true
  ∧ AccountLoginForm.emailError
      (state_of (AccountLoginForm.onSubmit login_typing_email login_bad_email_event))
    = Some "Please enter a valid email".
Proof.
  apply (login_email_stage_never_calls login_typing_email login_bad_email_event).
  reflexivity.
Defined.

(** X9: with the password input as the browser validates it ([required],
    [minLength={8}]), the password stage sends the login request exactly
    when the typed password has at least eight characters; an empty one gets
    "Please enter a password", and one of one to seven characters gets
    "Passwords must be at least 6 characters". *)
Theorem login_password_needs_eight_characters :
  ∀ st email_field,
    AccountLoginForm.showEmailField st = false →
    let event :=
      AccountLoginForm.mkForm email_field
        (password_input (AccountLoginForm.password st)) in
    let a := AccountLoginForm.onSubmit st event in
    (8 ≤ String.length (AccountLoginForm.password st) →
     issued a
     = [request (AccountLoginForm.callLoginApi
                   (AccountLoginForm.email st) (AccountLoginForm.password st))]
     ∧ AccountLoginForm.passwordError (state_of a) = None)
    ∧ (String.length (AccountLoginForm.password st) < 8 →
       issued a = []
       ∧ AccountLoginForm.passwordError (state_of a)
         = Some (if nonempty (AccountLoginForm.password st)
                 then "Passwords must be at least 6 characters"
                 else "Please enter a password")).
Proof.
  intros st email_field Hstage. simpl.
  unfold AccountLoginForm.onSubmit, AccountLoginForm.checkPassword.
  rewrite Hstage.
  change (valid (validity (AccountLoginForm.form_password _)))
    with (nonempty (AccountLoginForm.password st)
          && (8 <=? String.length (AccountLoginForm.password st))).
  change (valueMissing (validity (AccountLoginForm.form_password _)))
    with (negb (nonempty (AccountLoginForm.password st))).
  split; intros Hlen.
  - assert (Hne : nonempty (AccountLoginForm.password st) = true)
      by (destruct (AccountLoginForm.password st); [simpl in Hlen; lia | done]).
    apply Nat.leb_le in Hlen. by rewrite Hne, Hlen.
  - apply Nat.leb_gt in Hlen. rewrite Hlen, andb_false_r.
    by destruct (nonempty (AccountLoginForm.password st)).
Qed.

Lemma login_password_witness_seven_characters :
  issued
    (AccountLoginForm.onSubmit
       (AccountLoginForm.setPassword "hunter2" login_password_stage)
       (AccountLoginForm.mkForm (valid_field "ada@example.com")
          (password_input "hunter2"))) = []
  ∧ AccountLoginForm.passwordError
      (state_of
         (AccountLoginForm.onSubmit
            (AccountLoginForm.setPassword "hunter2" login_password_stage)
            (AccountLoginForm.mkForm (valid_field "ada@example.com")
               (password_input "hunter2"))))
    = Some "Passwords must be at least 6 characters".
Proof.
  apply (login_password_needs_eight_characters
           (AccountLoginForm.setPassword "hunter2" login_password_stage)
           (valid_field "ada@example.com")).
  - reflexivity.
  - vm_compute. lia.
Defined.

Lemma get_prop_singleton (k : string) (v : JsValue) :
  get_prop (VObj {[k := v]}) k = Some v.
Proof. simpl. by rewrite lookup_singleton_eq. Qed.

Lemma toString_nonempty (e : JsError) :
  err_name e ≠ "" ∨ err_message e ≠ "" → nonempty (toString e) = true.
Proof.
  unfold toString. destruct e as [[|a name] [|b message]]; simpl;
    intros [H|H]; done.
Qed.

(** X10: a transport failure during sign-in is shown like wrong
    credentials: when [fetch] rejects with an error that has a name or a
    message, the form goes back to the cleared email stage with the sign-in
    failure banner up. *)
Theorem login_transport_failure_shows_sign_in_banner :
  ∀ email password e st,
    err_name e ≠ "" ∨ err_message e ≠ "" →
    AccountLoginForm.checkPassword_resume
      (settle (AccountLoginForm.callLoginApi email password) (NetworkError e)) st
    = (login_failed, [])
    ∧ is_Some (login_banner login_failed).
Proof.
  intros email password e st He.
  unfold AccountLoginForm.checkPassword_resume.
  change (settle (AccountLoginForm.callLoginApi email password) (NetworkError e))
    with (Fulfilled (VObj {["error" := VStr (toString e)]})).
  cbv beta iota. rewrite get_prop_singleton. simpl truthy.
  rewrite (toString_nonempty e He). split; [done|by eexists].
Qed.

Lemma login_transport_failure_witness_failed_to_fetch :
  AccountLoginForm.checkPassword_resume
    (settle (AccountLoginForm.callLoginApi "ada@example.com" "hunter22")
       (NetworkError failed_to_fetch)) login_password_stage
  = (login_failed, [])
  ∧ is_Some (login_banner login_failed).
Proof.
  apply (login_transport_failure_shows_sign_in_banner
           "ada@example.com" "hunter22" failed_to_fetch login_password_stage).
  left. vm_compute. discriminate.
Defined.

Lemma login_settle_responded email password res :
  settle (AccountLoginForm.callLoginApi email password) (Responded res)
  = if ok res then Fulfilled (VObj ∅) else json res.
Proof. reflexivity. Qed.

(** X11: sign-in goes on to [/account] unless the answer carries a truthy
    [error]: a successful status navigates whatever the body is (it is not
    read), and so does a failed status whose JSON body has no truthy
    [error]; a failed status whose body is not JSON leaves the form as it
    was, with nothing shown and no navigation. *)
Theorem login_navigates_unless_truthy_error :
  ∀ email password st,
    (∀ res, ok res = true →
       AccountLoginForm.checkPassword_resume
         (settle (AccountLoginForm.callLoginApi email password) (Responded res)) st
       = (st, [Navigate "/account"]))
    ∧ (∀ res body error,
         ok res = false → json res = Fulfilled body →
         get_prop body "error" = Some error → truthy error = false →
         AccountLoginForm.checkPassword_resume
           (settle (AccountLoginForm.callLoginApi email password) (Responded res)) st
         = (st, [Navigate "/account"]))
    ∧ (∀ res e,
         ok res = false → json res = Rejected e →
         AccountLoginForm.checkPassword_resume
           (settle (AccountLoginForm.callLoginApi email password) (Responded res)) st
         = (st, [UnhandledRejection])).
Proof.
  intros email password st. repeat split.
  - intros res Hok. by rewrite login_settle_responded, Hok.
  - intros res body error Hok Hjson Hget Hfalsy.
    rewrite login_settle_responded, Hok, Hjson.
    unfold AccountLoginForm.checkPassword_resume. by rewrite Hget, Hfalsy.
  - intros res e Hok Hjson. by rewrite login_settle_responded, Hok, Hjson.
Qed.

Lemma login_navigates_witness_unauthorized_empty_object :
  AccountLoginForm.checkPassword_resume
    (settle (AccountLoginForm.callLoginApi "ada@example.com" "wrong-password")
       (Responded unauthorized_empty_object)) login_password_stage
  = (login_password_stage, [Navigate "/account"]).
Proof.
  apply (proj1 (proj2 (login_navigates_unless_truthy_error
                         "ada@example.com" "wrong-password" login_password_stage))
           unauthorized_empty_object (VObj ∅) VUndefined).
  - reflexivity.
  - reflexivity.
  - reflexivity.
  - reflexivity.
Defined.

(** X12: a failed sign-in starts the form over: from a fresh form, after the
    email and the password were typed and accepted and the call has come
    back with a truthy [error], the form is the fresh form again with the
    failure banner up, both typed values gone and nothing in flight. *)
Theorem login_failed_attempt_starts_over :
  ∀ e p ev1 ev2 o response error,
    valid (validity (AccountLoginForm.form_email ev1)) = true →
    valid (validity (AccountLoginForm.form_password ev2)) = true →
    settle (AccountLoginForm.callLoginApi e p) o = Fulfilled response →
    get_prop response "error" = Some error →
    truthy error = true →
    AccountLoginForm.run
      [AccountLoginForm.TypeEmail e; AccountLoginForm.Submit ev1;
       AccountLoginForm.TypePassword p; AccountLoginForm.Submit ev2;
       AccountLoginForm.Settle 0 o]
    = mkMounted
        (AccountLoginForm.setHasSubmitError true AccountLoginForm.initial) [].
Proof.
  intros e p ev1 ev2 o response error H1 H2 Hsettle Hget Htruthy.
  change [AccountLoginForm.TypeEmail e; AccountLoginForm.Submit ev1;
          AccountLoginForm.TypePassword p; AccountLoginForm.Submit ev2;
          AccountLoginForm.Settle 0 o]
    with ([AccountLoginForm.TypeEmail e; AccountLoginForm.Submit ev1;
           AccountLoginForm.TypePassword p; AccountLoginForm.Submit ev2]
          ++ [AccountLoginForm.Settle 0 o]).
  unfold AccountLoginForm.run. rewrite foldl_snoc.
  pose proof (login_flow_issues_one_call e p ev1 ev2 H1 H2) as Hpending.
  unfold AccountLoginForm.run in Hpending.
  cbn [AccountLoginForm.step]. unfold settle_call. rewrite Hpending.
  cbn [lookup list_lookup]. rewrite Hsettle.
  unfold AccountLoginForm.checkPassword_resume. rewrite Hget, Htruthy.
  reflexivity.
Qed.

Lemma login_failed_attempt_witness :
  AccountLoginForm.run
    [AccountLoginForm.TypeEmail "ada@example.com";
     AccountLoginForm.Submit login_email_event;
     AccountLoginForm.TypePassword "hunter22";
     AccountLoginForm.Submit login_password_event;
     AccountLoginForm.Settle 0
       (Responded
          (mkResponse false 401 "https://shop.example/account/login"
             (Fulfilled (VObj {["error" := VStr "Invalid credentials"]}))))]
  = mkMounted
      (AccountLoginForm.setHasSubmitError true AccountLoginForm.initial) [].
Proof.
  apply (login_failed_attempt_starts_over
           "ada@example.com" "hunter22" login_email_event login_password_event
           _ (VObj {["error" := VStr "Invalid credentials"]})
           (VStr "Invalid credentials")).
  - reflexivity.
  - reflexivity.
  - reflexivity.
  - reflexivity.
  - reflexivity.
Defined.

(** ** The password-reset form, beyond the claims *)

Lemma password_input_valid (s : string) :
  valid (validity (password_input s)) = (8 <=? String.length s).
Proof.
  change (nonempty s && (8 <=? String.length s) = (8 <=? String.length s)).
  destruct s; [done|]. done.
Qed.

Lemma password_input_valueMissing (s : string) :
  valueMissing (validity (password_input s)) = negb (nonempty s).
Proof. reflexivity. Qed.

(** X13: with both inputs as the browser validates them, the reset request
    is sent exactly when the two typed passwords are equal and at least
    eight characters long; it is then one POST to [/account/reset] with the
    [id], the [resetToken] and the password. *)
Theorem reset_sends_iff_equal_and_eight_characters :
  ∀ props st,
    issued (AccountPasswordResetForm.onSubmit props st (reset_form_of st))
    = if String.eqb (AccountPasswordResetForm.password st)
           (AccountPasswordResetForm.passwordConfirm st)
         && (8 <=? String.length (AccountPasswordResetForm.password st))
      then [mkRequest "/account/reset" POST json_headers
              [("id", AccountPasswordResetForm.id props);
               ("resetToken", AccountPasswordResetForm.resetToken props);
               ("password", AccountPasswordResetForm.password st)]]
      else [].
Proof.
  intros props st.
  unfold AccountPasswordResetForm.onSubmit,
    AccountPasswordResetForm.passwordValidation, reset_form_of.
  cbn [AccountPasswordResetForm.form_password
       AccountPasswordResetForm.form_passwordConfirm].
  rewrite !password_input_valid.
  destruct (String.eqb_spec (AccountPasswordResetForm.password st)
              (AccountPasswordResetForm.passwordConfirm st)) as [Heq|Hne].
  - rewrite <- Heq.
    by destruct (8 <=? String.length (AccountPasswordResetForm.password st)).
  - by destruct (8 <=? String.length (AccountPasswordResetForm.password st)),
      (8 <=? String.length (AccountPasswordResetForm.passwordConfirm st)).
Qed.

(** X14: with both inputs as the browser validates them, the confirm field
    shows "Please re-enter a password" exactly when both fields are
    empty. *)
Theorem reset_re_enter_message_iff_both_empty :
  ∀ st,
    AccountPasswordResetForm.passwordConfirmError
      (fst (AccountPasswordResetForm.passwordValidation (reset_form_of st) st))
    = Some "Please re-enter a password"
    ↔ AccountPasswordResetForm.password st = ""
      ∧ AccountPasswordResetForm.passwordConfirm st = "".
Proof.
  intros st.
  unfold AccountPasswordResetForm.passwordValidation, reset_form_of.
  cbn [AccountPasswordResetForm.form_password
       AccountPasswordResetForm.form_passwordConfirm].
  rewrite !password_input_valid, !password_input_valueMissing.
  destruct (String.eqb_spec (AccountPasswordResetForm.password st)
              (AccountPasswordResetForm.passwordConfirm st)) as [Heq|Hne].
  - rewrite <- Heq.
    destruct (AccountPasswordResetForm.password st) as [|a p] eqn:Hp.
    + simpl. by split.
    + destruct (8 <=? String.length (String a p)); simpl; split;
        intros H; try discriminate H; by destruct H.
  - destruct (8 <=? String.length (AccountPasswordResetForm.password st)),
      (8 <=? String.length (AccountPasswordResetForm.passwordConfirm st));
      simpl; split; intros H; try discriminate H;
      destruct H as [H1 H2]; rewrite H1, H2 in Hne; by destruct Hne.
Qed.

Lemma reset_re_enter_witness_both_empty :
  AccountPasswordResetForm.passwordConfirmError
    (fst (AccountPasswordResetForm.passwordValidation
            (reset_form_of AccountPasswordResetForm.initial)
            AccountPasswordResetForm.initial))
  = Some "Please re-enter a password".
Proof.
  apply (proj2 (reset_re_enter_message_iff_both_empty
                  AccountPasswordResetForm.initial)).
  split; reflexivity.
Defined.

Lemma reset_settle_responded id resetToken password res :
  settle (AccountPasswordResetForm.callPasswordResetApi id resetToken password)
    (Responded res)
  = if ok res then Fulfilled (VObj ∅) else json res.
Proof. reflexivity. Qed.

(** X15: how the reset form reads the answer: a successful status navigates
    to [/account]; a truthy [error] in a failed answer becomes the form's
    submit error, with no navigation and the typed passwords kept; when
    [fetch] itself fails, the submit error is the stringified failure. *)
Theorem reset_response_handling :
  ∀ id resetToken password st,
    (∀ res, ok res = true →
       AccountPasswordResetForm.onSubmit_resume
         (settle (AccountPasswordResetForm.callPasswordResetApi id resetToken password)
            (Responded res)) st
       = (st, [Navigate "/account"]))
    ∧ (∀ res body error,
         ok res = false → json res = Fulfilled body →
         get_prop body "error" = Some error → truthy error = true →
         AccountPasswordResetForm.onSubmit_resume
           (settle (AccountPasswordResetForm.callPasswordResetApi id resetToken password)
              (Responded res)) st
         = (AccountPasswordResetForm.setSubmitError (Some error) st, []))
    ∧ (∀ e, err_name e ≠ "" ∨ err_message e ≠ "" →
         AccountPasswordResetForm.onSubmit_resume
           (settle (AccountPasswordResetForm.callPasswordResetApi id resetToken password)
              (NetworkError e)) st
         = (AccountPasswordResetForm.setSubmitError (Some (VStr (toString e))) st,
            [])).
Proof.
  intros id resetToken password st. repeat split.
  - intros res Hok. by rewrite reset_settle_responded, Hok.
  - intros res body error Hok Hjson Hget Htruthy.
    rewrite reset_settle_responded, Hok, Hjson.
    unfold AccountPasswordResetForm.onSubmit_resume. by rewrite Hget, Htruthy.
  - intros e He.
    change (settle (AccountPasswordResetForm.callPasswordResetApi id resetToken password)
              (NetworkError e))
      with (Fulfilled (VObj {["error" := VStr (toString e)]})).
    unfold AccountPasswordResetForm.onSubmit_resume.
    rewrite get_prop_singleton. simpl truthy.
    by rewrite (toString_nonempty e He).
Qed.

Lemma reset_response_witness_failed_to_fetch :
  AccountPasswordResetForm.onSubmit_resume
    (settle (AccountPasswordResetForm.callPasswordResetApi
               "customer-1" "reset-token-1" "hunter22")
       (NetworkError failed_to_fetch)) reset_typed_twice
  = (AccountPasswordResetForm.setSubmitError
       (Some (VStr "TypeError: Failed to fetch")) reset_typed_twice, []).
Proof.
  apply (proj2 (proj2 (reset_response_handling
                         "customer-1" "reset-token-1" "hunter22"
                         reset_typed_twice)) failed_to_fetch).
  left. vm_compute. discriminate.
Defined.

(** X16: neither the reset form nor the account-details form ever clears
    its submit error: a submission leaves it as it is, and once set, every
    later response leaves it set. *)
Theorem submit_error_is_never_cleared :
  (∀ props st event,
     AccountPasswordResetForm.submitError
       (state_of (AccountPasswordResetForm.onSubmit props st event))
     = AccountPasswordResetForm.submitError st)
  ∧ (∀ response st,
       is_Some (AccountPasswordResetForm.submitError st) →
       is_Some (AccountPasswordResetForm.submitError
                  (fst (AccountPasswordResetForm.onSubmit_resume response st))))
  ∧ (∀ st event,
       AccountDetailsEdit.submitError
         (state_of (AccountDetailsEdit.onSubmit st event))
       = AccountDetailsEdit.submitError st)
  ∧ (∀ response st,
       is_Some (AccountDetailsEdit.submitError st) →
       is_Some (AccountDetailsEdit.submitError
                  (fst (AccountDetailsEdit.onSubmit_resume response st)))).
Proof.
  repeat split.
  - intros props st event.
    unfold AccountPasswordResetForm.onSubmit,
      AccountPasswordResetForm.passwordValidation.
    by destruct (valid (validity (AccountPasswordResetForm.form_password event))),
      (valid (validity (AccountPasswordResetForm.form_passwordConfirm event))),
      (String.eqb (AccountPasswordResetForm.password st)
         (AccountPasswordResetForm.passwordConfirm st)).
  - intros [v|e] st Hset; simpl; [|done].
    destruct (get_prop v "error") as [error|]; [|done].
    destruct (truthy error); [by eexists|done].
  - intros st event.
    unfold AccountDetailsEdit.onSubmit, AccountDetailsEdit.set_if_truthy,
      Utils.emailValidation, Utils.passwordValidation.
    by destruct (valid (validity (AccountDetailsEdit.form_email event))),
      (nonempty (value (AccountDetailsEdit.form_currentPassword event))),
      (valid (validity (AccountDetailsEdit.form_currentPassword event))),
      (valueMissing (validity (AccountDetailsEdit.form_currentPassword event))),
      (valid (validity (AccountDetailsEdit.form_newPassword event))),
      (valueMissing (validity (AccountDetailsEdit.form_newPassword event))),
      (String.eqb (value (AccountDetailsEdit.form_newPassword event))
         (value (AccountDetailsEdit.form_newPassword2 event))).
  - intros [v|e] st Hset; simpl; [|done].
    destruct (get_prop v "error") as [error|]; [|done].
    destruct (truthy error); [by eexists|done].
Qed.

Lemma submit_error_witness_stays_after_success :
  is_Some (AccountDetailsEdit.submitError
             (fst (AccountDetailsEdit.onSubmit_resume (Fulfilled (VObj ∅))
                     (AccountDetailsEdit.setSubmitError
                        (Some (VStr "Email has already been taken"))
                        edit_saving)))).
Proof.
  apply (proj2 (proj2 (proj2 submit_error_is_never_cleared))
           (Fulfilled (VObj ∅))).
  vm_compute. by eexists.
Defined.

(** ** The account-details form, beyond the claims *)

(** X17: the account update is sent exactly when the email field is valid
    and either the current password is empty, or the current and the new
    password fields are both valid and the two new passwords are equal.  The
    request then carries the profile values of the form's state and the two
    password fields as typed. *)
Theorem edit_sends_iff_fields_pass :
  ∀ st event,
    issued (AccountDetailsEdit.onSubmit st event)
    = if valid (validity (AccountDetailsEdit.form_email event))
         && (negb (nonempty (value (AccountDetailsEdit.form_currentPassword event)))
             || valid (validity (AccountDetailsEdit.form_currentPassword event))
                && valid (validity (AccountDetailsEdit.form_newPassword event))
                && String.eqb (value (AccountDetailsEdit.form_newPassword event))
                     (value (AccountDetailsEdit.form_newPassword2 event)))
      then [mkRequest "/account" PATCH json_headers
              [("email", AccountDetailsEdit.email st);
               ("phone", AccountDetailsEdit.phone st);
               ("firstName", AccountDetailsEdit.firstName st);
               ("lastName", AccountDetailsEdit.lastName st);
               ("currentPassword",
                value (AccountDetailsEdit.form_currentPassword event));
               ("newPassword",
                value (AccountDetailsEdit.form_newPassword event))]]
      else [].
Proof.
  intros st event.
  unfold AccountDetailsEdit.onSubmit, AccountDetailsEdit.set_if_truthy,
    Utils.emailValidation, Utils.passwordValidation.
  by destruct (valid (validity (AccountDetailsEdit.form_email event))),
    (nonempty (value (AccountDetailsEdit.form_currentPassword event))),
    (valid (validity (AccountDetailsEdit.form_currentPassword event))),
    (valueMissing (validity (AccountDetailsEdit.form_currentPassword event))),
    (valid (validity (AccountDetailsEdit.form_newPassword event))),
    (valueMissing (validity (AccountDetailsEdit.form_newPassword event))),
    (String.eqb (value (AccountDetailsEdit.form_newPassword event))
       (value (AccountDetailsEdit.form_newPassword2 event))).
Qed.

Lemma edit_settle_responded email phone firstName lastName currentPassword
    newPassword res :
  settle (AccountDetailsEdit.callAccountUpdateApi email phone firstName lastName
            currentPassword newPassword) (Responded res)
  = if ok res then Fulfilled (VObj ∅) else json res.
Proof. reflexivity. Qed.

(** X18: a save that fails keeps the form open and usable: on a truthy
    [error] in a failed answer, and on a failure of [fetch] itself, the busy
    flag is cleared, the message becomes the submit error (the fixed "Error
    saving account. Please try again." for a transport failure), nothing is
    closed or re-rendered, and the typed profile values stay. *)
Theorem edit_failed_save_keeps_form_open :
  ∀ email phone firstName lastName currentPassword newPassword st,
    let call :=
      AccountDetailsEdit.callAccountUpdateApi email phone firstName lastName
        currentPassword newPassword in
    (∀ res body error,
       ok res = false → json res = Fulfilled body →
       get_prop body "error" = Some error → truthy error = true →
       AccountDetailsEdit.onSubmit_resume (settle call (Responded res)) st
       = (AccountDetailsEdit.setSubmitError (Some error)
            (AccountDetailsEdit.setSaving false st), []))
    ∧ (∀ e,
         AccountDetailsEdit.onSubmit_resume (settle call (NetworkError e)) st
         = (AccountDetailsEdit.setSubmitError
              (Some (VStr "Error saving account. Please try again."))
              (AccountDetailsEdit.setSaving false st), []))
    ∧ (∀ error,
         let st' :=
           AccountDetailsEdit.setSubmitError error
             (AccountDetailsEdit.setSaving false st) in
         AccountDetailsEdit.saving st' = false
         ∧ AccountDetailsEdit.firstName st' = AccountDetailsEdit.firstName st
         ∧ AccountDetailsEdit.lastName st' = AccountDetailsEdit.lastName st
         ∧ AccountDetailsEdit.phone st' = AccountDetailsEdit.phone st
         ∧ AccountDetailsEdit.email st' = AccountDetailsEdit.email st).
Proof.
  intros email phone firstName lastName currentPassword newPassword st call.
  repeat split.
  - intros res body error Hok Hjson Hget Htruthy. unfold call.
    rewrite edit_settle_responded, Hok, Hjson.
    unfold AccountDetailsEdit.onSubmit_resume. by rewrite Hget, Htruthy.
Qed.

Lemma edit_failed_save_witness_email_taken :
  AccountDetailsEdit.onSubmit_resume
    (settle (AccountDetailsEdit.callAccountUpdateApi
               "ada@example.com" "" "Ada" "Lovelace" "" "")
       (Responded
          (mkResponse false 400 "https://shop.example/account"
             (Fulfilled (VObj {["error" := VStr "Email has already been taken"]})))))
    edit_saving
  = (AccountDetailsEdit.setSubmitError
       (Some (VStr "Email has already been taken"))
       (AccountDetailsEdit.setSaving false edit_saving), []).
Proof.
  apply (proj1 (edit_failed_save_keeps_form_open
                  "ada@example.com" "" "Ada" "Lovelace" "" "" edit_saving)
           _ (VObj {["error" := VStr "Email has already been taken"]})).
  - reflexivity.
  - reflexivity.
  - reflexivity.
  - reflexivity.
Defined.

(** X19: a save that succeeds clears the busy flag, asks for the server
    components to be rendered again and then closes the form, in that order;
    the body of a successful answer is not read. *)
Theorem edit_successful_save_rerenders_then_closes :
  ∀ email phone firstName lastName currentPassword newPassword st res,
    ok res = true →
    AccountDetailsEdit.onSubmit_resume
      (settle (AccountDetailsEdit.callAccountUpdateApi email phone firstName
                 lastName currentPassword newPassword) (Responded res)) st
    = (AccountDetailsEdit.setSaving false st, [RenderServerComponents; Close]).
Proof.
  intros email phone firstName lastName currentPassword newPassword st res Hok.
  by rewrite edit_settle_responded, Hok.
Qed.

Lemma edit_successful_save_witness :
  AccountDetailsEdit.onSubmit_resume
    (settle (AccountDetailsEdit.callAccountUpdateApi
               "ada@example.com" "" "Ada" "Lovelace" "" "")
       (Responded (mkResponse true 200 "https://shop.example/account"
                     (Rejected (mkJsError "SyntaxError" "Unexpected end of JSON input")))))
    edit_saving
  = (AccountDetailsEdit.setSaving false edit_saving,
     [RenderServerComponents; Close]).
Proof.
  apply (edit_successful_save_rerenders_then_closes
           "ada@example.com" "" "Ada" "Lovelace" "" "" edit_saving).
  reflexivity.
Defined.

Lemma edit_stuck_step (i : Mounted AccountDetailsEdit.State) a :
  AccountDetailsEdit.saving (current i) = true → pending i = [] →
  AccountDetailsEdit.saving (current (AccountDetailsEdit.step i a)) = true
  ∧ pending (AccountDetailsEdit.step i a) = [].
Proof.
  intros Hsaving Hpending. destruct a; simpl; try done.
  - unfold AccountDetailsEdit.submit. by rewrite Hsaving.
  - unfold settle_call. by rewrite Hpending.
Qed.

(** X20: when the answer to a save is a failed status whose body is not
    JSON, the adapter's promise rejects, the handler stops before clearing
    the busy flag, and from then on the form stays busy: whatever the user
    types or submits, the flag stays set and no further request is sent. *)
Theorem edit_rejected_save_leaves_form_busy :
  (∀ email phone firstName lastName currentPassword newPassword st res e,
     ok res = false → json res = Rejected e →
     AccountDetailsEdit.onSubmit_resume
       (settle (AccountDetailsEdit.callAccountUpdateApi email phone firstName
                  lastName currentPassword newPassword) (Responded res)) st
     = (st, [UnhandledRejection]))
  ∧ (∀ i actions,
       AccountDetailsEdit.saving (current i) = true → pending i = [] →
       AccountDetailsEdit.saving
         (current (foldl AccountDetailsEdit.step i actions)) = true
       ∧ pending (foldl AccountDetailsEdit.step i actions) = []).
Proof.
  split.
  - intros email phone firstName lastName currentPassword newPassword st res e
      Hok Hjson.
    by rewrite edit_settle_responded, Hok, Hjson.
  - intros i actions. revert i.
    induction actions as [|a actions IH]; intros i Hsaving Hpending; [done|].
    simpl. destruct (edit_stuck_step i a Hsaving Hpending) as [Hs Hp].
    by apply IH.
Qed.

Lemma edit_rejected_save_witness_stuck :
  AccountDetailsEdit.saving
    (current (foldl AccountDetailsEdit.step edit_stuck
                [AccountDetailsEdit.TypeEmail "ada@example.org";
                 AccountDetailsEdit.Submit edit_valid_event])) = true
  ∧ pending (foldl AccountDetailsEdit.step edit_stuck
               [AccountDetailsEdit.TypeEmail "ada@example.org";
                AccountDetailsEdit.Submit edit_valid_event]) = [].
Proof.
  apply (proj2 edit_rejected_save_leaves_form_busy edit_stuck).
  - reflexivity.
  - reflexivity.
Defined.

(** ** The best-seller section, beyond the claims *)

(** X21: when the fetch succeeds with an empty list, the section shows the
    text "No products found.", renders no card and logs nothing. *)
Theorem empty_best_sellers_shows_no_products_found :
  ∀ fetchSync,
    ok (fetchSync "/api/bestSellers") = true →
    json (fetchSync "/api/bestSellers") = Fulfilled (VArr []) →
    CartEmpty.TopProducts fetchSync
    = (CartEmpty.RenderText "No products found.", []).
Proof.
  intros fetchSync Hok Hjson. unfold CartEmpty.TopProducts.
  by rewrite Hok, Hjson.
Qed.

Lemma empty_best_sellers_witness :
  CartEmpty.TopProducts best_sellers_none
  = (CartEmpty.RenderText "No products found.", []).
Proof.
  apply (empty_best_sellers_shows_no_products_found best_sellers_none).
  - reflexivity.
  - reflexivity.
Defined.

Lemma mapM_card (xs : list JsValue) :
  Forall (λ product, product ≠ VNull ∧ product ≠ VUndefined) xs →
  mapM CartEmpty.card xs
  = Some (map (λ product, (opt_prop product "id", product)) xs).
Proof.
  induction 1 as [|product xs [Hnull Hundef] _ IH]; [done|].
  simpl. rewrite IH. unfold CartEmpty.card, opt_prop.
  by destruct product.
Qed.

(** X22: when the fetch succeeds with a non-empty list, the section renders
    exactly one card per product, in the order of the list, each keyed by
    the product's [id], and logs nothing; a [null] entry in the list makes
    the section throw. *)
Theorem best_sellers_render_one_card_per_product :
  ∀ fetchSync products,
    ok (fetchSync "/api/bestSellers") = true →
    json (fetchSync "/api/bestSellers") = Fulfilled (VArr products) →
    products ≠ [] →
    (Forall (λ product, product ≠ VNull ∧ product ≠ VUndefined) products →
     CartEmpty.TopProducts fetchSync
     = (CartEmpty.RenderCards
          (map (λ product, (opt_prop product "id", product)) products), []))
    ∧ (VNull ∈ products →
       CartEmpty.TopProducts fetchSync = (CartEmpty.RenderThrows, [])).
Proof.
  intros fetchSync products Hok Hjson Hne.
  unfold CartEmpty.TopProducts. rewrite Hok, Hjson. simpl.
  rewrite bool_decide_eq_false_2 by (by destruct products).
  split.
  - intros Hall. by rewrite (mapM_card products Hall).
  - intros Hnull.
    assert (Hnone : mapM CartEmpty.card products = None).
    { apply mapM_None, Exists_exists. by exists VNull. }
    by rewrite Hnone.
Qed.

Lemma best_sellers_witness_two_cards :
  CartEmpty.TopProducts best_sellers_two
  = (CartEmpty.RenderCards
       [(VStr "gid://shopify/Product/1", best_seller_board);
        (VStr "gid://shopify/Product/2", best_seller_wax)], []).
Proof.
  apply (best_sellers_render_one_card_per_product best_sellers_two
           [best_seller_board; best_seller_wax]).
  - reflexivity.
  - reflexivity.
  - discriminate.
  - repeat constructor; discriminate.
Defined.

(** X23: the section logs only for a failed fetch: with a successful status
    it never writes to the console and never renders nothing silently. *)
Theorem best_sellers_log_only_on_failed_fetch :
  ∀ fetchSync,
    ok (fetchSync "/api/bestSellers") = true →
    snd (CartEmpty.TopProducts fetchSync) = []
    ∧ fst (CartEmpty.TopProducts fetchSync) ≠ CartEmpty.RenderNull.
Proof.
  intros fetchSync Hok. unfold CartEmpty.TopProducts. rewrite Hok. simpl.
  destruct (json (fetchSync "/api/bestSellers")) as [products|]; [|done].
  destruct (CartEmpty.length_is_zero products) as [[|]|]; try done.
  destruct products as [| | | | |xs|]; try done.
  by destruct (mapM CartEmpty.card xs).
Qed.

Lemma best_sellers_log_witness_two :
  snd (CartEmpty.TopProducts best_sellers_two) = []
  ∧ fst (CartEmpty.TopProducts best_sellers_two) ≠ CartEmpty.RenderNull.
Proof.
  apply (best_sellers_log_only_on_failed_fetch best_sellers_two).
  reflexivity.
Defined.

(** ** The [/account] route, beyond the claims *)

Lemma method_gate (method : string) :
  negb (String.eqb method "PATCH") && negb (String.eqb method "DELETE") = false
  ↔ patch_or_delete method.
Proof.
  unfold patch_or_delete.
  destruct (String.eqb_spec method "PATCH"), (String.eqb_spec method "DELETE");
    simpl; split; intros H; try done; auto.
  by destruct H.
Qed.

(** X24: the [customerUpdate] mutation is sent only for a PATCH or DELETE
    request of a session that holds a token, and with that token.  Any other
    method is answered 405 with [Allow: PATCH,DELETE] before the session is
    looked at; and the answers the route gives without asking the shop are
    405, 400 or 401 and never carry a JSON body. *)
Theorem api_sends_mutation_only_when_signed_in :
  ∀ getApiErrorMessage request session,
    (AccountRoute.method request ≠ "PATCH" →
     AccountRoute.method request ≠ "DELETE" →
     AccountRoute.api getApiErrorMessage request session
     = AccountRoute.Respond
         (AccountRoute.mkHttpResponse AccountRoute.BodyNull 405
            [("Allow", "PATCH,DELETE")]))
    ∧ (∀ customer token k,
         AccountRoute.api getApiErrorMessage request session
         = AccountRoute.QueryShop customer token k →
         patch_or_delete (AccountRoute.method request)
         ∧ ∃ s, session = Some s
                ∧ token = AccountRoute.customerAccessToken s
                ∧ truthy token = true)
    ∧ (∀ r,
         AccountRoute.api getApiErrorMessage request session
         = AccountRoute.Respond r →
         (AccountRoute.res_status r = 405%N
          ∨ AccountRoute.res_status r = 400%N
          ∨ AccountRoute.res_status r = 401%N)
         ∧ ∀ v, AccountRoute.res_body r ≠ AccountRoute.BodyJson v).
Proof.
  intros g request session. unfold AccountRoute.api.
  destruct (negb (String.eqb (AccountRoute.method request) "PATCH")
            && negb (String.eqb (AccountRoute.method request) "DELETE"))
    eqn:Hgate.
  { split; [done|]. split; [discriminate|].
    intros r [= <-]. split; [by left|done]. }
  apply method_gate in Hgate.
  split.
  { intros H1 H2. by destruct Hgate. }
  destruct session as [s|].
  2:{ split; [discriminate|]. intros r [= <-]. split; [by right; left|done]. }
  destruct (truthy (AccountRoute.customerAccessToken s)) eqn:Htoken; simpl.
  2:{ split; [discriminate|]. intros r [= <-]. split; [by right; right|done]. }
  destruct (AccountRoute.request_json request) as [body|];
    [|split; discriminate].
  destruct (get_prop body "email"); [|split; discriminate].
  destruct (get_prop body "phone"); [|split; discriminate].
  destruct (get_prop body "firstName"); [|split; discriminate].
  destruct (get_prop body "lastName"); [|split; discriminate].
  destruct (get_prop body "newPassword"); [|split; discriminate].
  split; [|discriminate].
  intros customer token k [= _ <- _]. split; [done|]. by exists s.
Qed.

Lemma api_witness_get_is_not_allowed :
  AccountRoute.api no_api_error get_account signed_in
  = AccountRoute.Respond
      (AccountRoute.mkHttpResponse AccountRoute.BodyNull 405
         [("Allow", "PATCH,DELETE")]).
Proof.
  apply (api_sends_mutation_only_when_signed_in no_api_error get_account signed_in).
  - vm_compute. discriminate.
  - vm_compute. discriminate.
Defined.

(** X25: past the method check the route does not tell DELETE from PATCH:
    a DELETE request runs the same customer update as the PATCH request
    with the same body and session. *)
Theorem api_treats_delete_as_patch :
  ∀ getApiErrorMessage method1 method2 body session,
    patch_or_delete method1 → patch_or_delete method2 →
    AccountRoute.api getApiErrorMessage
      (AccountRoute.mkHydrogenRequest method1 body) session
    = AccountRoute.api getApiErrorMessage
        (AccountRoute.mkHydrogenRequest method2 body) session.
Proof.
  intros g method1 method2 body session H1%method_gate H2%method_gate.
  unfold AccountRoute.api. simpl. by rewrite H1, H2.
Qed.

Lemma api_witness_delete_updates_first_name :
  AccountRoute.api no_api_error
    (AccountRoute.mkHydrogenRequest "DELETE"
       (AccountRoute.request_json patch_clear_first_name)) signed_in
  = AccountRoute.api no_api_error patch_clear_first_name signed_in.
Proof.
  apply (api_treats_delete_as_patch no_api_error "DELETE" "PATCH"
           (AccountRoute.request_json patch_clear_first_name) signed_in).
  - by right.
  - by left.
Defined.

(** X26: the route never looks at [currentPassword]: adding it to a request
    body, or changing it, changes nothing in what the route does; a new
    password is passed to the shop without the current one being checked. *)
Theorem api_ignores_current_password :
  ∀ getApiErrorMessage method props currentPassword session,
    AccountRoute.api getApiErrorMessage
      (AccountRoute.mkHydrogenRequest method
         (Fulfilled (VObj (<["currentPassword" := currentPassword]> props))))
      session
    = AccountRoute.api getApiErrorMessage
        (AccountRoute.mkHydrogenRequest method (Fulfilled (VObj props))) session.
Proof.
  intros g method props currentPassword session.
  unfold AccountRoute.api. simpl.
  by rewrite !lookup_insert_ne by done.
Qed.

(** X27: a request whose body names no truthy field still reaches the shop:
    the mutation is sent with an empty [customer] input. *)
Theorem api_sends_empty_update :
  ∀ getApiErrorMessage method session body,
    patch_or_delete method →
    truthy (AccountRoute.customerAccessToken session) = true →
    body ≠ VNull → body ≠ VUndefined →
    truthy (opt_prop body "email") = false →
    truthy (opt_prop body "phone") = false →
    truthy (opt_prop body "firstName") = false →
    truthy (opt_prop body "lastName") = false →
    truthy (opt_prop body "newPassword") = false →
    ∃ k,
      AccountRoute.api getApiErrorMessage
        (AccountRoute.mkHydrogenRequest method (Fulfilled body)) (Some session)
      = AccountRoute.QueryShop ∅ (AccountRoute.customerAccessToken session) k.
Proof.
  intros g method session body Hmethod Htoken Hnull Hundef He Hp Hf Hl Hn.
  unfold AccountRoute.api. simpl.
  apply method_gate in Hmethod. rewrite Hmethod, Htoken. simpl.
  assert (Hget : ∀ key, get_prop body key = Some (opt_prop body key))
    by (intros key; by destruct body).
  rewrite !Hget. unfold AccountRoute.assign_if_truthy.
  rewrite He, Hp, Hf, Hl, Hn. by eexists.
Qed.

Lemma api_witness_empty_update :
  ∃ k,
    AccountRoute.api no_api_error patch_nothing signed_in
    = AccountRoute.QueryShop ∅ (VStr "token-1") k.
Proof.
  apply (api_sends_empty_update no_api_error "PATCH"
           (AccountRoute.mkSession (VStr "token-1")) (VObj ∅)).
  - by left.
  - reflexivity.
  - discriminate.
  - discriminate.
  - reflexivity.
  - reflexivity.
  - reflexivity.
  - reflexivity.
  - reflexivity.
Defined.
